(** * health-app: the Zepp CSV import and the dashboard figures of [app.py]

    A shallow embedding of the data-shaping code of [src/app.py]:
    [process_zepp_csv] (column mapping), [save_zepp_data] (per-row coercion,
    date normalisation, [INSERT OR REPLACE] into [zepp_data]) and the two KPI
    figures computed in [main] (current weight, average sleep).

    Conventions of the model.
    - A Python [str] is a [string]; one [ascii] stands for one character, so
      [String.length] is Python's [len] and the order of [String.compare] is
      the order of SQLite's BINARY collation.
    - A Python [int] is a [Z].  A Python [float] is a [pyfloat]: a finite
      value carried as an exact rational (rounding is not modelled, and
      infinities are left out), or [NaN], which is what pandas puts in an
      empty CSV cell.
    - An exception is a [Raise] result; [try/except] is a [match] on it.
    - What [app.py] calls in Python and pandas on text ([int], [float],
      [repr] of a float, [pd.to_datetime]) is the interface [pylib]; every
      theorem holds for every implementation of it, and [reflib] is the
      implementation the examples run on. *)

From Stdlib Require Import ZArith QArith String Ascii List Bool Lia.
From Stdlib Require Import DecimalString Permutation Sorted OrderedTypeEx Lqa.
Import ListNotations.

Local Open Scope string_scope.
Local Open Scope Z_scope.
Local Open Scope list_scope.

(* ------------------------------------------------------------------------- *)
(** * Python and pandas values *)

Module Py.

Inductive exn : Type :=
| ValueError        (* int("abc"), float("abc"), int(nan) *)
| OverflowError     (* an int that does not fit SQLite's INTEGER *)
| OperationalError. (* raised by sqlite3 *)

Inductive res (A : Type) : Type :=
| Ok (a : A)
| Raise (e : exn).
Arguments Ok {A} a.
Arguments Raise {A} e.

Definition bind {A B : Type} (m : res A) (k : A -> res B) : res B :=
  match m with
  | Ok a => k a
  | Raise e => Raise e
  end.

Inductive pyfloat : Type :=
| Fin (q : Q)
| NaN.

(** The value of one cell of a row yielded by [df.iterrows()]. *)
Inductive cell : Type :=
| CInt (n : Z)
| CFloat (x : pyfloat)
| CBool (b : bool)
| CStr (s : string).

(** [pandas.Timestamp], as far as [strftime("%Y-%m-%d")] reads it. *)
Record timestamp : Type := mkTimestamp {
  year : Z; month : Z; day : Z;
  hour : Z; minute : Z; second : Z
}.

(** The functions of Python and pandas that read or write text. [None] is a
    raised exception ([to_datetime] also answers [None] for [NaT] and for a
    timestamp outside the years 1 to 9999, whose [strftime] raises). *)
Record pylib : Type := mkPylib {
  int_of_str : string -> option Z;
  float_of_str : string -> option pyfloat;
  float_repr : Q -> string;
  to_datetime : string -> option timestamp
}.

(** [bool(c)] *)
Definition truthy (c : cell) : bool :=
  match c with
  | CInt n => negb (n =? 0)
  | CFloat (Fin q) => negb (Qeq_bool q 0)
  | CFloat NaN => true
  | CBool b => b
  | CStr s => negb (s =? "")%string
  end.

(** [c or d] *)
Definition py_or (c d : cell) : cell := if truthy c then c else d.

Definition of_option {A : Type} (o : option A) : res A :=
  match o with
  | Some a => Ok a
  | None => Raise ValueError
  end.

(** [int(c)]: a float is truncated towards zero, [int(nan)] raises. *)
Definition py_int (py : pylib) (c : cell) : res Z :=
  match c with
  | CInt n => Ok n
  | CFloat (Fin q) => Ok (Z.quot (Qnum q) (Z.pos (Qden q)))
  | CFloat NaN => Raise ValueError
  | CBool b => Ok (if b then 1 else 0)
  | CStr s => of_option (int_of_str py s)
  end.

(** [float(c)] *)
Definition py_float (py : pylib) (c : cell) : res pyfloat :=
  match c with
  | CInt n => Ok (Fin (inject_Z n))
  | CFloat x => Ok x
  | CBool b => Ok (Fin (if b then 1 else 0)%Q)
  | CStr s => of_option (float_of_str py s)
  end.

Definition decimal (n : Z) : string := NilZero.string_of_int (Z.to_int n).

(** [str(c)] *)
Definition py_str (py : pylib) (c : cell) : string :=
  match c with
  | CInt n => decimal n
  | CFloat (Fin q) => float_repr py q
  | CFloat NaN => "nan"
  | CBool b => if b then "True" else "False"
  | CStr s => s
  end.

(** [s.lower()], on the letters A to Z. *)
Definition lower_ascii (c : ascii) : ascii :=
  let n := nat_of_ascii c in
  if (65 <=? n)%nat && (n <=? 90)%nat then ascii_of_nat (n + 32) else c.

Fixpoint lower (s : string) : string :=
  match s with
  | EmptyString => EmptyString
  | String c s' => String (lower_ascii c) (lower s')
  end.

(** [sub in s] *)
Fixpoint contains (sub s : string) : bool :=
  prefix sub s ||
  match s with
  | EmptyString => false
  | String _ s' => contains sub s'
  end.

(** [s[:n]] *)
Definition slice_to (n : nat) (s : string) : string := substring 0 n s.

(** A field of [strftime]: the number in decimal, zero-padded to [w]. *)
Fixpoint zeros (k : nat) : string :=
  match k with
  | O => ""
  | S k' => String "0" (zeros k')
  end.

Definition zfill (w : nat) (n : Z) : string :=
  let d := decimal n in zeros (w - String.length d) ++ d.

(** [ts.strftime("%Y-%m-%d")]: month and day are padded to two digits; the
    year is printed as the C library of Linux prints it, without padding, so
    that the year 999 gives "999-01-01". *)
Definition strftime_ymd (ts : timestamp) : string :=
  decimal (year ts) ++ "-" ++ zfill 2 (month ts) ++ "-" ++ zfill 2 (day ts).

(** A row of a data frame as [iterrows] yields it: labels and values. *)
Definition series : Type := list (string * cell).

(** The headers of a parsed file and, row by row, the cells in the form in
    which [iterrows] hands them out. *)

Record dataframe : Type := mkDataframe {
  columns : list string;
  values : list (list cell)
}.

Definition iterrows (df : dataframe) : list series :=
  map (fun r => combine (columns df) r) (values df).

(** [label in row]; a label that is [None] is in no row. *)
Definition series_has (label : option string) (row : series) : bool :=
  match label with
  | Some l => existsb (fun kv => (fst kv =? l)%string) row
  | None => false
  end.

Fixpoint series_find (l : string) (row : series) : option cell :=
  match row with
  | [] => None
  | (k, v) :: row' => if (k =? l)%string then Some v else series_find l row'
  end.

(** [row.get(label, default)] *)
Definition series_get (row : series) (label : option string) (default : cell)
  : cell :=
  match label with
  | Some l => match series_find l row with Some v => v | None => default end
  | None => default
  end.

(** A [dict] from [str] to [str], in insertion order. *)
Definition dict : Type := list (string * string).

Fixpoint dict_get (k : string) (d : dict) : option string :=
  match d with
  | [] => None
  | (k', v) :: d' => if (k' =? k)%string then Some v else dict_get k d'
  end.

(** [d[k] = v] *)
Fixpoint dict_set (k v : string) (d : dict) : dict :=
  match d with
  | [] => [(k, v)]
  | (k', v') :: d' =>
      if (k' =? k)%string then (k', v) :: d' else (k', v') :: dict_set k v d'
  end.

Definition dict_values (d : dict) : list string := map snd d.

(** [x in l] for a list of strings. *)
Definition mem (x : string) (l : list string) : bool :=
  existsb (fun y => (y =? x)%string) l.

End Py.

(* ------------------------------------------------------------------------- *)
(** * The [zepp_data] table *)

Module Sqlite.
Import Py.

(** [CREATE TABLE zepp_data (id INTEGER PRIMARY KEY AUTOINCREMENT, date TEXT
    UNIQUE, steps INTEGER, sleep_hours REAL, deep_sleep_min INTEGER,
    min_heart_rate INTEGER, max_heart_rate INTEGER, body_weight REAL)].
    SQLite stores a NaN as NULL and pandas reads a NULL back as a missing
    value: [NaN] stands for both. *)
Record zepp_row : Type := mkRow {
  id : Z;
  date : string;
  steps : Z;
  sleep_hours : pyfloat;
  deep_sleep_min : Z;
  min_heart_rate : Z;
  max_heart_rate : Z;
  body_weight : pyfloat
}.

(** The rows of the table and the counter that [sqlite_sequence] keeps for an
    AUTOINCREMENT key (0 as long as nothing was inserted). *)
Record table : Type := mkTable {
  rows : list zepp_row;
  seq : Z
}.

Definition empty_table : table := mkTable [] 0.

(** The seven values bound to the [?] of the statement. *)
Record params : Type := mkParams {
  p_date : string;
  p_steps : Z;
  p_sleep_hours : pyfloat;
  p_deep_sleep_min : Z;
  p_min_heart_rate : Z;
  p_max_heart_rate : Z;
  p_body_weight : pyfloat
}.

Definition MAX_ROWID : Z := 2 ^ 63 - 1.

(** A Python int is bound as a 64-bit integer, or the call raises. *)
Definition fits_int64 (n : Z) : bool := (- 2 ^ 63 <=? n) && (n <=? MAX_ROWID).

Definition bindable (p : params) : bool :=
  fits_int64 (p_steps p) && fits_int64 (p_deep_sleep_min p) &&
  fits_int64 (p_min_heart_rate p) && fits_int64 (p_max_heart_rate p).

Fixpoint largest_rowid (l : list zepp_row) : option Z :=
  match l with
  | [] => None
  | r :: l' =>
      Some (match largest_rowid l' with
            | None => id r
            | Some m => Z.max (id r) m
            end)
  end.

(** The key of a new row of an AUTOINCREMENT table: one more than the largest
    key in the table and than the largest key ever handed out; the table is
    full once either has reached [MAX_ROWID]. *)
Definition new_rowid (t : table) : res Z :=
  match largest_rowid (rows t) with
  | None =>
      if seq t =? MAX_ROWID then Raise OperationalError
      else Ok (Z.max 1 (seq t + 1))
  | Some m =>
      if (seq t =? MAX_ROWID) || (MAX_ROWID <=? m) then Raise OperationalError
      else Ok (Z.max (m + 1) (seq t + 1))
  end.

Definition row_of (i : Z) (p : params) : zepp_row :=
  mkRow i (p_date p) (p_steps p) (p_sleep_hours p) (p_deep_sleep_min p)
        (p_min_heart_rate p) (p_max_heart_rate p) (p_body_weight p).

Definition has_date (d : string) (r : zepp_row) : bool := (date r =? d)%string.

(** [INSERT OR REPLACE INTO zepp_data (date, steps, ...) VALUES (?, ...)]:
    the rows that hold the new row's date (the UNIQUE column) are deleted,
    then the new row is inserted under a new key. *)
Definition insert_or_replace (t : table) (p : params) : res table :=
  if negb (bindable p) then Raise OverflowError
  else
    bind (new_rowid t) (fun i =>
    Ok (mkTable
          (filter (fun r => negb (has_date (p_date p) r)) (rows t)
             ++ [row_of i p])
          i)).

(** [ORDER BY date ASC] *)
Fixpoint insert_by_date (r : zepp_row) (l : list zepp_row) : list zepp_row :=
  match l with
  | [] => [r]
  | r' :: l' =>
      if (date r <=? date r')%string then r :: l
      else r' :: insert_by_date r l'
  end.

Fixpoint order_by_date (l : list zepp_row) : list zepp_row :=
  match l with
  | [] => []
  | r :: l' => insert_by_date r (order_by_date l')
  end.

(** [SELECT ... FROM zepp_data WHERE date >= cutoff ORDER BY date ASC];
    [cutoff] is the text that [date('now', '-30 days')] evaluates to. *)
Definition select_since (cutoff : string) (t : table) : list zepp_row :=
  order_by_date (filter (fun r => (cutoff <=? date r)%string) (rows t)).

End Sqlite.

(* ------------------------------------------------------------------------- *)
(** * [app.py] *)

Module App.
Import Py Sqlite.

Inductive error_msg : Type :=
| ErrReadCsv (e : exn)     (* "Errore lettura CSV: ..." *)
| ErrNoColumns             (* "Nessuna colonna riconosciuta nel CSV. ..." *)
| ErrSave (e : exn).       (* "Errore durante il salvataggio nel DB: ..." *)

(** What the function shows to the user through streamlit. *)
Inductive ui : Type :=
| St_error (m : error_msg)
| St_write (cols : list string)   (* "Colonne trovate nel file:" *)
| St_info (cols : list string)    (* "Colonne mappate: ..." *)
| St_success (count : nat).       (* "Dati salvati! Record processati: ..." *)

(** The [mapping] literal of [process_zepp_csv]. *)
Definition default_mapping : dict :=
  [ ("date", "date");
    ("steps", "steps");
    ("sleep_hours", "totalSleep");
    ("deep_sleep_min", "deepSleep");
    ("min_heart_rate", "minHeartRate");
    ("max_heart_rate", "maxHeartRate");
    ("body_weight", "weight") ].

(** ['date' in c.lower() or 'time' in c.lower()] *)
Definition date_like (c : string) : bool :=
  contains "date" (lower c) || contains "time" (lower c).

Definition possible_date_cols (cols : list string) : list string :=
  filter date_like cols.

(** The mapping after the fall-back on the date column. *)
Definition resolve_mapping (cols : list string) : dict :=
  if negb (mem "date" cols) then
    match possible_date_cols cols with
    | c :: _ => dict_set "date" c default_mapping
    | [] => default_mapping
    end
  else default_mapping.

Definition available_columns (cols : list string) (mapping : dict)
  : list string :=
  filter (fun col => mem col cols) (dict_values mapping).

(** [process_zepp_csv]; [read] is the outcome of [pd.read_csv(uploaded_file)].
    The result is the returned pair and what was shown. *)
Definition process_zepp_csv (read : res dataframe)
  : (option dataframe * option dict) * list ui :=
  match read with
  | Raise e => ((None, None), [St_error (ErrReadCsv e)])
  | Ok df =>
      let mapping := resolve_mapping (columns df) in
      match available_columns (columns df) mapping with
      | [] => ((None, None), [St_error ErrNoColumns; St_write (columns df)])
      | available => ((Some df, Some mapping), [St_info available])
      end
  end.

(** [x > y] and [x / y] on floats *)
Definition fgt (x y : pyfloat) : bool :=
  match x, y with
  | Fin a, Fin b => negb (Qle_bool a b)
  | _, _ => false
  end.

Definition fdiv (x y : pyfloat) : pyfloat :=
  match x, y with
  | Fin a, Fin b => Fin (a / b)
  | _, _ => NaN
  end.

(** [raw_sleep / 60 if raw_sleep > 24 else raw_sleep] *)
Definition sleep_unit_heuristic (raw_sleep : pyfloat) : pyfloat :=
  if fgt raw_sleep (Fin 24) then fdiv raw_sleep (Fin 60) else raw_sleep.

Section Upsert.
Variable py : pylib.

(** Lines 188-194: the text of the date cell becomes the stored date. *)
Definition normalize_date (date_val : string) : string :=
  if (10 <? String.length date_val)%nat then
    match to_datetime py date_val with
    | Some dt_obj => strftime_ymd dt_obj
    | None => slice_to 10 date_val
    end
  else date_val.

(** [int(row.get(mapping.get(key), 0) or 0)] and its float twin. *)
Definition int_field (mapping : dict) (row : series) (key : string) : res Z :=
  py_int py (py_or (series_get row (dict_get key mapping) (CInt 0)) (CInt 0)).

Definition float_field (mapping : dict) (row : series) (key : string)
  : res pyfloat :=
  py_float py (py_or (series_get row (dict_get key mapping) (CInt 0)) (CInt 0)).

(** The body of the loop from line 186 to the values handed to [c.execute]. *)
Definition row_params (mapping : dict) (row : series) : res params :=
  let date_val :=
    normalize_date
      (py_str py (series_get row (dict_get "date" mapping) (CInt 0))) in
  bind (int_field mapping row "steps") (fun steps =>
  bind (float_field mapping row "sleep_hours") (fun raw_sleep =>
  let sleep_h := sleep_unit_heuristic raw_sleep in
  bind (int_field mapping row "deep_sleep_min") (fun deep_sleep =>
  bind (int_field mapping row "min_heart_rate") (fun min_hr =>
  bind (int_field mapping row "max_heart_rate") (fun max_hr =>
  bind (float_field mapping row "body_weight") (fun weight =>
  Ok (mkParams date_val steps sleep_h deep_sleep min_hr max_hr weight))))))).

(** The [for] loop: [work] is the table as the open transaction sees it. *)
Fixpoint save_rows (mapping : dict) (rs : list series) (work : table)
  (count_updated : nat) : res (table * nat) :=
  match rs with
  | [] => Ok (work, count_updated)
  | row :: rs' =>
      if negb (series_has (dict_get "date" mapping) row) then
        save_rows mapping rs' work count_updated
      else
        bind (row_params mapping row) (fun p =>
        bind (insert_or_replace work p) (fun work' =>
        save_rows mapping rs' work' (S count_updated)))
  end.

(** [save_zepp_data]: [conn.commit()] is reached when the loop ends; an
    exception leaves the loop for the handler, and [conn.close()] drops the
    transaction that was not committed. *)
Definition save_zepp_data (db : table) (df : dataframe) (mapping : dict)
  : table * list ui :=
  match save_rows mapping (iterrows df) db 0 with
  | Ok (work, count_updated) => (work, [St_success count_updated])
  | Raise e => (db, [St_error (ErrSave e)])
  end.

End Upsert.

(** ** The KPI cards of the dashboard *)

(** [df_zepp['body_weight'] > 0] keeps a row. *)
Definition valid_weight (r : zepp_row) : bool := fgt (body_weight r) (Fin 0).

(** [curr_weight]; [None] is the text "N/A". *)
Definition curr_weight (df_zepp : list zepp_row) : option pyfloat :=
  match df_zepp with
  | [] => None
  | _ =>
      match rev (filter valid_weight df_zepp) with
      | [] => None
      | r :: _ => Some (body_weight r)
      end
  end.

(** The values of a float column that are not missing. *)
Fixpoint present (l : list pyfloat) : list Q :=
  match l with
  | [] => []
  | Fin q :: l' => q :: present l'
  | NaN :: l' => present l'
  end.

Definition Qsum (l : list Q) : Q := fold_right Qplus 0%Q l.

(** [Series.mean()]: missing values are skipped. *)
Definition series_mean (l : list pyfloat) : pyfloat :=
  match present l with
  | [] => NaN
  | qs => Fin (Qsum qs / inject_Z (Z.of_nat (length qs)))
  end.

Definition avg_sleep (df_zepp : list zepp_row) : pyfloat :=
  match df_zepp with
  | [] => Fin 0
  | _ => series_mean (map sleep_hours df_zepp)
  end.

(** The two figures as [main] computes them from the table. *)
Definition dashboard (cutoff : string) (db : table)
  : option pyfloat * pyfloat :=
  let df_zepp := select_since cutoff db in
  (curr_weight df_zepp, avg_sleep df_zepp).

End App.

(* ------------------------------------------------------------------------- *)
(** * A reference implementation of [pylib]

    Enough of Python's text functions to run the examples: [int] in full (on
    ASCII digits), [float] on decimal literals and on "nan", [repr] of a
    float in positional notation, and [pd.to_datetime] on the ISO form
    [YYYY-MM-DD HH:MM:SS].  Text outside these forms is answered as
    unparseable; the examples stay inside them. *)

Module Ref.
Import Py.

Definition is_space (c : ascii) : bool :=
  let n := nat_of_ascii c in
  ((9 <=? n)%nat && (n <=? 13)%nat) || ((28 <=? n)%nat && (n <=? 32)%nat).

Fixpoint lstrip (s : string) : string :=
  match s with
  | String c s' => if is_space c then lstrip s' else s
  | EmptyString => EmptyString
  end.

Fixpoint rstrip (s : string) : string :=
  match s with
  | String c s' =>
      match rstrip s' with
      | EmptyString => if is_space c then EmptyString else String c EmptyString
      | r => String c r
      end
  | EmptyString => EmptyString
  end.

Definition strip (s : string) : string := rstrip (lstrip s).

Definition digit (c : ascii) : option Z :=
  let n := Z.of_nat (nat_of_ascii c) in
  if (48 <=? n) && (n <=? 57) then Some (n - 48) else None.

Definition is_digit (c : ascii) : bool :=
  match digit c with Some _ => true | None => false end.

(** [digit (["_"] digit)*] read from the head of [s], which starts with a
    digit: the value read so far, the number of digits, and what follows. *)
Fixpoint digitpart_from (acc : Z) (len : nat) (s : string)
  : Z * nat * string :=
  match s with
  | String c s' =>
      match digit c with
      | Some d => digitpart_from (10 * acc + d) (S len) s'
      | None =>
          if (c =? "_")%char then
            match s' with
            | String c' _ =>
                if is_digit c' then digitpart_from acc len s'
                else (acc, len, s)
            | EmptyString => (acc, len, s)
            end
          else (acc, len, s)
      end
  | EmptyString => (acc, len, s)
  end.

(** No digit at the head of [s]: nothing is read. *)
Definition read_digits (s : string) : Z * nat * string :=
  match s with
  | String c _ => if is_digit c then digitpart_from 0 0 s else (0, O, s)
  | EmptyString => (0, O, s)
  end.

(** An optional sign: [true] for a minus. *)
Definition read_sign (s : string) : bool * string :=
  match s with
  | String "-" s' => (true, s')
  | String "+" s' => (false, s')
  | _ => (false, s)
  end.

Definition signed (neg : bool) (n : Z) : Z := if neg then - n else n.

Definition ref_int_of_str (s : string) : option Z :=
  let (neg, body) := read_sign (strip s) in
  match read_digits body with
  | (n, S _, EmptyString) => Some (signed neg n)
  | _ => None
  end.

(** [[digitpart] ["." [digitpart]] [("e" | "E") [sign] digitpart]] *)
Definition float_body (s : string) : option Q :=
  let '(i, ni, s1) := read_digits s in
  let '(f, nf, s2) :=
    match s1 with
    | String "." s1' => read_digits s1'
    | _ => (0, O, s1)
    end in
  if (ni + nf =? 0)%nat then None
  else
    let mant := inject_Z (i * 10 ^ Z.of_nat nf + f) in
    let scale := Qpower (inject_Z 10) (- Z.of_nat nf) in
    match s2 with
    | EmptyString => Some (mant * scale)%Q
    | String e s3 =>
        if (e =? "e")%char || (e =? "E")%char then
          let (neg, s4) := read_sign s3 in
          match read_digits s4 with
          | (x, S _, EmptyString) =>
              Some (mant * scale * Qpower (inject_Z 10) (signed neg x))%Q
          | _ => None
          end
        else None
    end.

Definition ref_float_of_str (s : string) : option pyfloat :=
  let (neg, body) := read_sign (strip s) in
  if (lower body =? "nan")%string then Some NaN
  else
    match float_body body with
    | Some q => Some (Fin (if neg then - q else q)%Q)
    | None => None
    end.

Fixpoint frac_digits (fuel : nat) (r d : Z) : string :=
  match fuel with
  | O => ""
  | S fuel' =>
      if r =? 0 then ""
      else decimal (10 * r / d) ++ frac_digits fuel' ((10 * r) mod d) d
  end.

Definition ref_float_repr (q : Q) : string :=
  let d := Z.pos (Qden q) in
  let a := Z.abs (Qnum q) in
  let frac := frac_digits 17 (a mod d) d in
  (if Qnum q <? 0 then "-" else "") ++ decimal (a / d) ++ "." ++
  (if (frac =? "")%string then "0" else frac).

(** A field of exactly [String.length s] digits. *)
Definition number (s : string) : option Z :=
  match read_digits s with
  | (n, len, EmptyString) =>
      if (len =? String.length s)%nat && negb (len =? 0)%nat then Some n
      else None
  | _ => None
  end.

Definition is_leap (y : Z) : bool :=
  ((y mod 4 =? 0) && negb (y mod 100 =? 0)) || (y mod 400 =? 0).

Definition days_in_month (y m : Z) : Z :=
  if m =? 2 then (if is_leap y then 29 else 28)
  else if (m =? 4) || (m =? 6) || (m =? 9) || (m =? 11) then 30
  else 31.

Definition within (lo n hi : Z) : bool := (lo <=? n) && (n <=? hi).

(** [YYYY-MM-DD HH:MM:SS], inside the years a [Timestamp] can hold. *)
Definition ref_to_datetime (s : string) : option timestamp :=
  if negb (String.length s =? 19)%nat then None
  else if negb ((substring 4 1 s =? "-")%string && (substring 7 1 s =? "-")%string
                && ((substring 10 1 s =? " ")%string
                    || (substring 10 1 s =? "T")%string)
                && (substring 13 1 s =? ":")%string
                && (substring 16 1 s =? ":")%string) then None
  else
    match number (substring 0 4 s), number (substring 5 2 s),
          number (substring 8 2 s), number (substring 11 2 s),
          number (substring 14 2 s), number (substring 17 2 s) with
    | Some y, Some m, Some d, Some hh, Some mm, Some ss =>
        if within 1678 y 2261 && within 1 m 12
           && within 1 d (days_in_month y m)
           && within 0 hh 23 && within 0 mm 59 && within 0 ss 59
        then Some (mkTimestamp y m d hh mm ss)
        else None
    | _, _, _, _, _, _ => None
    end.

Definition reflib : pylib :=
  mkPylib ref_int_of_str ref_float_of_str ref_float_repr ref_to_datetime.

End Ref.


Import Py Sqlite App.

(** The stored date of a row, whatever becomes of its numeric cells. *)
Definition row_date (py : pylib) (mapping : dict) (row : series) : string :=
  normalize_date py
    (py_str py (series_get row (dict_get "date" mapping) (CInt 0))).

(** The rows of a batch that reach [c.execute]. *)
Definition has_date_cell (mapping : dict) (row : series) : bool :=
  series_has (dict_get "date" mapping) row.

(** What the schema and the AUTOINCREMENT key promise of a table: one row
    per date, one row per key, keys between 1 and the recorded counter. *)
Definition table_ok (t : table) : Prop :=
  NoDup (map date (rows t)) /\
  NoDup (map id (rows t)) /\
  forall r, In r (rows t) -> 1 <= id r <= seq t.

(** [ORDER BY date ASC]: each row is followed by a row of a later date. *)
Definition date_le (a b : zepp_row) : Prop := (date a <=? date b)%string = true.

(* ------------------------------------------------------------------------- *)
(** * Sample files and tables *)

Module Sample.
Import Ref.

(** [date,steps] with the same day written in two ways. *)
Definition two_formats : dataframe :=
  mkDataframe ["date"; "steps"]
    [ [CStr "2024-01-01"; CInt 100];
      [CStr "2024-01-01 08:00:00"; CInt 250] ].

Definition two_formats_params : params :=
  mkParams "2024-01-01" 250 (Fin 0) 0 0 0 (Fin 0).

(** [date,weight]: a later file for the same day, without a steps column. *)
Definition weight_only : dataframe :=
  mkDataframe ["date"; "weight"] [ [CStr "2024-01-01"; CFloat (Fin 70.5)] ].

Definition weight_only_params : params :=
  mkParams "2024-01-01" 0 (Fin 0) 0 0 0 (Fin 70.5).

(** [date,steps] where the second of three rows has text for its steps; the
    column then holds text in every row. *)
Definition bad_steps : dataframe :=
  mkDataframe ["date"; "steps"]
    [ [CStr "2024-01-01"; CStr "100"];
      [CStr "2024-01-02"; CStr "abc"];
      [CStr "2024-01-03"; CStr "300"] ].

(** [Time,steps,totalSleep]: no [date] header, sleep given in minutes. *)
Definition time_header : dataframe :=
  mkDataframe ["Time"; "steps"; "totalSleep"]
    [ [CStr "2024-03-05 14:30:00"; CInt 8000; CInt 450] ].

Definition time_header_params : params :=
  mkParams "2024-03-05" 8000 (Fin (inject_Z 450 / 60)) 0 0 0 (Fin 0).

(** A file none of whose headers is known. *)
Definition unknown_headers : dataframe :=
  mkDataframe ["day"; "passi"] [ [CStr "2024-01-01"; CInt 5] ].

(** A date cell that is no date at all. *)
Definition odd_dates : dataframe :=
  mkDataframe ["date"; "steps"]
    [ [CStr "hello"; CInt 1]; [CStr "not-a-date!!"; CInt 2] ].

Definition weighed (i : Z) (d : string) (w : Q) (s : Q) : zepp_row :=
  mkRow i d 0 (Fin s) 0 0 0 (Fin w).

(** Four days, weighed on the third only. *)
Definition four_days : table :=
  mkTable
    [ weighed 1 "2024-05-01" 0 7;
      weighed 2 "2024-05-02" 0 8;
      weighed 3 "2024-05-03" 62.3 6;
      weighed 4 "2024-05-04" 0 7 ]
    4.

End Sample.

(* ------------------------------------------------------------------------- *)
(** * [analyze_food_text] *)

Module Food.
Import Py.

(** [c.isspace()] *)
Definition isspace (c : ascii) : bool :=
  let n := nat_of_ascii c in
  ((9 <=? n)%nat && (n <=? 13)%nat) || ((28 <=? n)%nat && (n <=? 32)%nat)
  || (n =? 133)%nat || (n =? 160)%nat.

Fixpoint lstrip (s : string) : string :=
  match s with
  | String c s' => if isspace c then lstrip s' else s
  | EmptyString => EmptyString
  end.

Fixpoint rstrip (s : string) : string :=
  match s with
  | String c s' =>
      match rstrip s' with
      | EmptyString => if isspace c then EmptyString else String c EmptyString
      | r => String c r
      end
  | EmptyString => EmptyString
  end.

(** [s.strip()] *)
Definition strip (s : string) : string := rstrip (lstrip s).

(** [s.replace("", new)]: [new] before every character and at the end. *)
Fixpoint interleave (new s : string) : string :=
  match s with
  | EmptyString => new
  | String c s' => (new ++ String c (interleave new s'))%string
  end.

(** [s.replace(old, new)] for a non-empty [old], reading [s] from the left:
    [skip] characters of an occurrence that was found are still to pass. *)
Fixpoint replace_from (old new : string) (skip : nat) (s : string) : string :=
  match s with
  | EmptyString => EmptyString
  | String c s' =>
      match skip with
      | S k => replace_from old new k s'
      | O =>
          if prefix old s then
            (new ++ replace_from old new (String.length old - 1) s')%string
          else String c (replace_from old new 0 s')
      end
  end.

(** [s.replace(old, new)] *)
Definition replace (old new s : string) : string :=
  match old with
  | EmptyString => interleave new s
  | _ => replace_from old new 0 s
  end.

Definition fence : string := "```".
Definition fence_json : string := "```json".

(** Line 122: [text.replace("```json", "").replace("```", "").strip()] *)
Definition clean_text (text : string) : string :=
  strip (replace fence "" (replace fence_json "" text)).

Inductive notice : Type :=
| NoApiKey         (* st.error: the key is not in the secrets *)
| PlaceholderKey   (* st.warning: the key is still the placeholder *)
| ParseFailure.    (* st.error("Errore nel parsing AI: ...") *)

Section Analyze.
(** The parsed JSON value, whatever its shape. *)
Variable J : Type.
(** [ask text_input] is the text of the reply to the prompt built from
    [text_input], [loads] is [json.loads]; [None] is a raised exception. *)
Variable ask : string -> option string.
Variable loads : string -> option J.

(** [api_key] is [st.secrets["GOOGLE_API_KEY"]], [None] when the key is not
    in the secrets. The result is the returned value and what was shown. *)
Definition analyze_food_text (api_key : option string) (text_input : string)
  : option J * list notice :=
  match api_key with
  | None => (None, [NoApiKey])
  | Some api_key_val =>
      if contains "INSERISCI" api_key_val then (None, [PlaceholderKey])
      else
        match ask text_input with
        | None => (None, [ParseFailure])
        | Some text =>
            match loads (clean_text text) with
            | Some data => (Some data, [])
            | None => (None, [ParseFailure])
            end
        end
  end.

End Analyze.

End Food.

(* ------------------------------------------------------------------------- *)
(** * The chart of the last seven days *)

Module Chart.
Import Py Sqlite App.

(** A row of [merged_df]. *)
Record chart_row : Type := mkChart {
  c_date : string;
  c_body_weight : pyfloat;
  c_sleep_hours : pyfloat;
  c_steps : pyfloat;
  c_kcal : pyfloat
}.

(** The rows of [df_meals] once line 327 has added the [date] column: the
    day of the meal and its [kcal]. *)
Definition meal : Type := (string * pyfloat)%type.

Fixpoint insert_key (d : string) (l : list string) : list string :=
  match l with
  | [] => [d]
  | d' :: l' =>
      if (d =? d')%string then l
      else if (d <=? d')%string then d :: l
      else d' :: insert_key d l'
  end.

(** The group keys: each day once, in ascending order. *)
Fixpoint group_keys (l : list string) : list string :=
  match l with
  | [] => []
  | d :: l' => insert_key d (group_keys l')
  end.

(** [df_meals.groupby('date')['kcal'].sum().reset_index()]: a missing
    [kcal] adds nothing to the sum of its day. *)
Definition daily_kcal (df_meals : list meal) : list (string * Q) :=
  map (fun d =>
         (d, Qsum (present (map snd
                              (filter (fun m => (fst m =? d)%string) df_meals)))))
      (group_keys (map fst df_meals)).

Definition left_row (r : zepp_row) (kcal : pyfloat) : chart_row :=
  mkChart (date r) (body_weight r) (sleep_hours r)
          (Fin (inject_Z (steps r))) kcal.

Definition right_row (dk : string * Q) : chart_row :=
  mkChart (fst dk) NaN NaN NaN (Fin (snd dk)).

(** [pd.merge(df_zepp, daily_kcal, on='date', how='outer')]: a row of
    [df_zepp] meets every row of [daily_kcal] of its date, or stands alone
    with a missing [kcal]; the days of [daily_kcal] that [df_zepp] does not
    have stand alone too. The order of the rows is set by the sort below. *)
Definition merge_outer (df_zepp : list zepp_row) (daily : list (string * Q))
  : list chart_row :=
  flat_map
    (fun r =>
       match filter (fun dk => (fst dk =? date r)%string) daily with
       | [] => [left_row r NaN]
       | found => map (fun dk => left_row r (Fin (snd dk))) found
       end)
    df_zepp
  ++ map right_row
       (filter (fun dk => negb (existsb (has_date (fst dk)) df_zepp)) daily).

Definition fill0 (x : pyfloat) : pyfloat :=
  match x with
  | NaN => Fin 0
  | _ => x
  end.

(** [.fillna(0)] *)
Definition fillna0 (r : chart_row) : chart_row :=
  mkChart (c_date r) (fill0 (c_body_weight r)) (fill0 (c_sleep_hours r))
          (fill0 (c_steps r)) (fill0 (c_kcal r)).

(** [.sort_values('date')] *)
Fixpoint insert_chart (r : chart_row) (l : list chart_row) : list chart_row :=
  match l with
  | [] => [r]
  | r' :: l' =>
      if (c_date r <=? c_date r')%string then r :: l
      else r' :: insert_chart r l'
  end.

Fixpoint sort_values (l : list chart_row) : list chart_row :=
  match l with
  | [] => []
  | r :: l' => insert_chart r (sort_values l')
  end.

(** [.tail(n)] *)
Definition tail {A : Type} (n : nat) (l : list A) : list A :=
  skipn (length l - n) l.

(** Lines 333-338: [None] when [df_zepp] is empty and no chart is drawn. *)
Definition merged_df (df_zepp : list zepp_row) (df_meals : list meal)
  : option (list chart_row) :=
  match df_zepp with
  | [] => None
  | _ =>
      Some (tail 7 (sort_values
                      (map fillna0
                         (merge_outer df_zepp (daily_kcal df_meals)))))
  end.

End Chart.

(* ------------------------------------------------------------------------- *)
(** * Notions used by the further properties *)

(** The seven values of a stored row. *)
Definition params_of (r : zepp_row) : params :=
  mkParams (date r) (steps r) (sleep_hours r) (deep_sleep_min r)
           (min_heart_rate r) (max_heart_rate r) (body_weight r).

(** A date is held by a table, is written by a batch. *)
Definition holds_date (t : table) (d : string) : Prop :=
  exists r, In r (rows t) /\ date r = d.

Definition writes_date (py : pylib) (mapping : dict) (rs : list series)
  (d : string) : Prop :=
  exists row, In row rs /\ has_date_cell mapping row = true /\
              row_date py mapping row = d.

(** Files imported one after the other, each with its mapping. *)
Definition import_all (py : pylib) (files : list (dataframe * dict))
  (db : table) : table :=
  fold_left (fun t f => fst (save_zepp_data py t (fst f) (snd f))) files db.

(** The keys of the integer fields of a record. *)
Definition int_keys : list string :=
  ["steps"; "deep_sleep_min"; "min_heart_rate"; "max_heart_rate"].

(** The fields of a timestamp are those of a calendar date. *)
Definition calendar (ts : timestamp) : Prop :=
  0 <= year ts <= 9999 /\ 0 <= month ts <= 12 /\ 0 <= day ts <= 31.

Definition calendar_lib (py : pylib) : Prop :=
  forall s ts, to_datetime py s = Some ts -> calendar ts.

(** Every row of the file has a cell for every header. *)
Definition full_width (df : dataframe) : Prop :=
  forall r, In r (values df) -> length r = length (columns df).

(** No backtick in a text. *)
Fixpoint no_backtick (s : string) : bool :=
  match s with
  | EmptyString => true
  | String c s' => negb (c =? "`")%char && no_backtick s'
  end.

Definition chart_date_le (a b : Chart.chart_row) : Prop :=
  (Chart.c_date a <=? Chart.c_date b)%string = true.

(** The days of the meals, as the second frame of the merge has them. *)
Definition meal_days (df_meals : list Chart.meal) : list string :=
  map fst (Chart.daily_kcal df_meals).

(** One day strictly before another. *)
Definition key_lt (a b : string) : Prop :=
  (a <=? b)%string = true /\ a <> b.

(** None of the four figures of a chart row is missing. *)
Definition filled (r : Chart.chart_row) : Prop :=
  Chart.c_body_weight r <> NaN /\ Chart.c_sleep_hours r <> NaN /\
  Chart.c_steps r <> NaN /\ Chart.c_kcal r <> NaN.

Definition chart_date_lt (a b : Chart.chart_row) : Prop :=
  (Chart.c_date a <=? Chart.c_date b)%string = true /\
  Chart.c_date a <> Chart.c_date b.

(* ------------------------------------------------------------------------- *)
(** * Further sample files *)

Module Cases.
Import Ref.

(** [steps,totalSleep] with nothing that could be a date. *)
Definition no_date : dataframe :=
  mkDataframe ["steps"; "totalSleep"] [ [CInt 100; CInt 7]; [CInt 200; CInt 8] ].

(** An empty cell in the integer column of the second row. *)
Definition empty_steps : dataframe :=
  mkDataframe ["date"; "steps"]
    [ [CStr "2024-01-01"; CFloat (Fin 100)];
      [CStr "2024-01-02"; CFloat NaN] ].

(** Three days, one of them twice. *)
Definition three_days : dataframe :=
  mkDataframe ["date"; "steps"; "weight"]
    [ [CStr "2024-05-03"; CInt 4000; CFloat (Fin 62.5)];
      [CStr "2024-05-05"; CInt 5000; CFloat NaN];
      [CStr "2024-05-03 21:00:00"; CInt 9000; CFloat (Fin 62.4)] ].

(** The rows of a chart, none when no chart is drawn. *)
Definition drawn (o : option (list Chart.chart_row)) : list Chart.chart_row :=
  match o with
  | Some chart => chart
  | None => []
  end.

Definition meals_may : list Chart.meal :=
  [ ("2024-05-02", Fin 600); ("2024-05-06", Fin 450);
    ("2024-05-02", Fin 350); ("2024-05-07", NaN) ].

End Cases.

(* ------------------------------------------------------------------------- *)
(** * Facts about the table *)

Section TableFacts.

Lemma has_date_iff d r : has_date d r = true <-> date r = d.
Proof. unfold has_date. apply String.eqb_eq. Qed.

Lemma has_date_row_of i p : has_date (p_date p) (row_of i p) = true.
Proof. apply has_date_iff. reflexivity. Qed.

Lemma filter_none {A} (f : A -> bool) l :
  (forall x, In x l -> f x = false) -> filter f l = [].
Proof.
  induction l as [|a l IH]; intros H; simpl; [reflexivity|].
  rewrite (H a (or_introl eq_refl)). apply IH.
  intros x Hx. apply H. right. exact Hx.
Qed.

Lemma filter_filter_negb {A} (f : A -> bool) l :
  filter f (filter (fun x => negb (f x)) l) = [].
Proof.
  apply filter_none. intros x Hx. apply filter_In in Hx.
  destruct Hx as [_ Hx]. destruct (f x); [discriminate | reflexivity].
Qed.

Lemma filter_other_date d d' l :
  d' <> d ->
  filter (has_date d) (filter (fun r => negb (has_date d' r)) l)
  = filter (has_date d) l.
Proof.
  intros Hne. induction l as [|r l IH]; simpl; [reflexivity|].
  destruct (has_date d' r) eqn:E'; simpl.
  - apply has_date_iff in E'.
    destruct (has_date d r) eqn:E; [|exact IH].
    apply has_date_iff in E. congruence.
  - destruct (has_date d r); [f_equal|]; exact IH.
Qed.

Lemma largest_rowid_none l : largest_rowid l = None -> l = [].
Proof. destruct l; simpl; [reflexivity | discriminate]. Qed.

Lemma largest_rowid_bound l m :
  largest_rowid l = Some m -> forall r, In r l -> id r <= m.
Proof.
  revert m. induction l as [|a l IH]; intros m Hm r Hr; [contradiction|].
  simpl in Hm. destruct (largest_rowid l) as [m'|] eqn:E.
  - injection Hm as <-. destruct Hr as [<- | Hr]; [lia|].
    specialize (IH m' eq_refl r Hr). lia.
  - injection Hm as <-. apply largest_rowid_none in E. subst l.
    destruct Hr as [<- | []]. lia.
Qed.

Lemma new_rowid_fresh t i :
  new_rowid t = Ok i ->
  seq t < i /\ forall r, In r (rows t) -> id r < i.
Proof.
  unfold new_rowid. destruct (largest_rowid (rows t)) as [m|] eqn:E.
  - destruct ((seq t =? MAX_ROWID) || (MAX_ROWID <=? m)); [discriminate|].
    intros H. injection H as <-. split; [lia|].
    intros r Hr. pose proof (largest_rowid_bound _ _ E r Hr). lia.
  - destruct (seq t =? MAX_ROWID); [discriminate|].
    intros H. injection H as <-. split; [lia|].
    apply largest_rowid_none in E. rewrite E. intros r [].
Qed.

Lemma insert_or_replace_rows t p t' :
  insert_or_replace t p = Ok t' ->
  exists i,
    new_rowid t = Ok i /\ seq t' = i /\
    rows t' = filter (fun r => negb (has_date (p_date p) r)) (rows t)
                ++ [row_of i p].
Proof.
  unfold insert_or_replace. destruct (negb (bindable p)); [discriminate|].
  destruct (new_rowid t) as [i|e]; simpl; [|discriminate].
  intros H. injection H as <-. exists i. simpl. auto.
Qed.

Lemma upsert_same_date t p t' :
  insert_or_replace t p = Ok t' ->
  exists i, filter (has_date (p_date p)) (rows t') = [row_of i p].
Proof.
  intros H. apply insert_or_replace_rows in H.
  destruct H as (i & _ & _ & ->). exists i.
  rewrite filter_app, filter_filter_negb. simpl.
  rewrite has_date_row_of. reflexivity.
Qed.

Lemma upsert_other_date t p t' d :
  insert_or_replace t p = Ok t' -> p_date p <> d ->
  filter (has_date d) (rows t') = filter (has_date d) (rows t).
Proof.
  intros H Hne. apply insert_or_replace_rows in H.
  destruct H as (i & _ & _ & ->).
  rewrite filter_app, filter_other_date by exact Hne. simpl.
  destruct (has_date d (row_of i p)) eqn:E.
  - apply has_date_iff in E. simpl in E. contradiction.
  - apply app_nil_r.
Qed.

End TableFacts.

(* ------------------------------------------------------------------------- *)
(** * Facts about the import loop *)

Section LoopFacts.
Variable py : pylib.
Variable mapping : dict.

Lemma bind_ok {A B} (m : res A) (k : A -> res B) b :
  bind m k = Ok b -> exists a, m = Ok a /\ k a = Ok b.
Proof. destruct m as [a|e]; simpl; [eauto | discriminate]. Qed.

Lemma row_params_date row p :
  row_params py mapping row = Ok p -> p_date p = row_date py mapping row.
Proof.
  unfold row_params. intros H.
  repeat (apply bind_ok in H; destruct H as (? & _ & H)).
  injection H as <-. reflexivity.
Qed.

Lemma row_params_sleep row p :
  row_params py mapping row = Ok p ->
  exists raw_sleep,
    float_field py mapping row "sleep_hours" = Ok raw_sleep /\
    p_sleep_hours p = sleep_unit_heuristic raw_sleep.
Proof.
  unfold row_params. intros H.
  apply bind_ok in H. destruct H as (? & _ & H).
  apply bind_ok in H. destruct H as (raw & Hraw & H).
  repeat (apply bind_ok in H; destruct H as (? & _ & H)).
  injection H as <-. exists raw. auto.
Qed.

Lemma row_params_fields row p :
  row_params py mapping row = Ok p ->
  int_field py mapping row "steps" = Ok (p_steps p) /\
  (exists raw, float_field py mapping row "sleep_hours" = Ok raw /\
               p_sleep_hours p = sleep_unit_heuristic raw) /\
  int_field py mapping row "deep_sleep_min" = Ok (p_deep_sleep_min p) /\
  int_field py mapping row "min_heart_rate" = Ok (p_min_heart_rate p) /\
  int_field py mapping row "max_heart_rate" = Ok (p_max_heart_rate p) /\
  float_field py mapping row "body_weight" = Ok (p_body_weight p).
Proof.
  unfold row_params. intros H.
  apply bind_ok in H. destruct H as (a & Ha & H).
  apply bind_ok in H. destruct H as (b & Hb & H).
  apply bind_ok in H. destruct H as (c & Hc & H).
  apply bind_ok in H. destruct H as (d & Hd & H).
  apply bind_ok in H. destruct H as (e & He & H).
  apply bind_ok in H. destruct H as (f & Hf & H).
  injection H as <-. simpl. repeat split; try assumption.
  exists b. auto.
Qed.

(** One turn of the loop that reaches [c.execute]. *)
Lemma save_rows_cons row rs work c out :
  has_date_cell mapping row = true ->
  save_rows py mapping (row :: rs) work c = Ok out ->
  exists p work',
    row_params py mapping row = Ok p /\
    insert_or_replace work p = Ok work' /\
    save_rows py mapping rs work' (S c) = Ok out.
Proof.
  unfold has_date_cell. intros Hd H. simpl in H. rewrite Hd in H. simpl in H.
  apply bind_ok in H. destruct H as (p & Hp & H).
  apply bind_ok in H. destruct H as (work' & Hw & H).
  exists p, work'. auto.
Qed.

Lemma save_rows_skip row rs work c :
  has_date_cell mapping row = false ->
  save_rows py mapping (row :: rs) work c = save_rows py mapping rs work c.
Proof. unfold has_date_cell. intros Hd. simpl. rewrite Hd. reflexivity. Qed.

(** Rows of other dates leave the records of date [d] as they are. *)
Lemma save_rows_other_dates d rs : forall work c work' c',
  save_rows py mapping rs work c = Ok (work', c') ->
  (forall row, In row rs -> has_date_cell mapping row = true ->
               row_date py mapping row <> d) ->
  filter (has_date d) (rows work') = filter (has_date d) (rows work).
Proof.
  induction rs as [|row rs IH]; intros work c work' c' H Hd.
  - simpl in H. injection H as <- <-. reflexivity.
  - destruct (has_date_cell mapping row) eqn:E.
    + apply save_rows_cons in H; [|exact E].
      destruct H as (p & work1 & Hp & Hw & H).
      rewrite (IH _ _ _ _ H) by (intros; apply Hd; [right|]; assumption).
      apply (upsert_other_date _ _ _ _ Hw).
      rewrite (row_params_date _ _ Hp). apply Hd; [left; reflexivity | exact E].
    + rewrite save_rows_skip in H by exact E.
      apply (IH _ _ _ _ H). intros; apply Hd; [right|]; assumption.
Qed.

(** The last row of a date decides the record of that date. *)
Lemma save_rows_last pre row post p : forall work c work' c',
  save_rows py mapping (pre ++ row :: post) work c = Ok (work', c') ->
  has_date_cell mapping row = true ->
  row_params py mapping row = Ok p ->
  (forall row', In row' post -> has_date_cell mapping row' = true ->
                row_date py mapping row' <> p_date p) ->
  exists i, filter (has_date (p_date p)) (rows work') = [row_of i p].
Proof.
  induction pre as [|r pre IH]; intros work c work' c' H Hd Hp Hpost.
  - simpl in H. apply save_rows_cons in H; [|exact Hd].
    destruct H as (p' & work1 & Hp' & Hw & H).
    rewrite Hp in Hp'. injection Hp' as <-.
    destruct (upsert_same_date _ _ _ Hw) as [i Hi]. exists i.
    rewrite (save_rows_other_dates _ _ _ _ _ _ H Hpost). exact Hi.
  - rewrite <- app_comm_cons in H.
    destruct (has_date_cell mapping r) eqn:E.
    + apply save_rows_cons in H; [|exact E].
      destruct H as (p' & work1 & _ & _ & H). eapply IH; eassumption.
    + rewrite save_rows_skip in H by exact E. eapply IH; eassumption.
Qed.

(** A row whose cells do not coerce stops the loop with an exception,
    wherever it stands in the batch. *)
Lemma save_rows_raise rs : forall row e work c,
  In row rs -> has_date_cell mapping row = true ->
  row_params py mapping row = Raise e ->
  exists e', save_rows py mapping rs work c = Raise e'.
Proof.
  induction rs as [|r rs IH]; intros row e work c Hin Hd Hp; [contradiction|].
  destruct Hin as [-> | Hin].
  - exists e. simpl. unfold has_date_cell in Hd. rewrite Hd. simpl.
    rewrite Hp. reflexivity.
  - simpl. destruct (negb (series_has (dict_get "date" mapping) r)).
    + eapply IH; eassumption.
    + destruct (row_params py mapping r) as [p|e1]; simpl; [|eauto].
      destruct (insert_or_replace work p) as [w|e2]; simpl; [|eauto].
      eapply IH; eassumption.
Qed.

End LoopFacts.

(* ------------------------------------------------------------------------- *)
(** * The import: one record per date *)

(** C1. An import that ends without an exception leaves, for every row whose
    date is not repeated further down the same file, exactly one record of
    that date, and each of the seven columns of the record holds the value
    that this row gave: its normalized date, its coerced steps, the sleep
    heuristic of its coerced sleep value, and so on. The table [db] before
    the import is arbitrary: records of the same date left by an earlier
    import, or written by an earlier row of the same file, are replaced as a
    whole. *)
Theorem same_date_one_record_latest_fields :
  forall (py : pylib) (db : table) (df : dataframe) (mapping : dict)
         (db' : table) (n : nat) (pre : list series) (row : series)
         (post : list series) (p : params),
    save_zepp_data py db df mapping = (db', [St_success n]) ->
    iterrows df = pre ++ row :: post ->
    has_date_cell mapping row = true ->
    row_params py mapping row = Ok p ->
    (forall row', In row' post -> has_date_cell mapping row' = true ->
                  row_date py mapping row' <> p_date p) ->
    exists r,
      filter (has_date (p_date p)) (rows db') = [r] /\
      (date r = p_date p /\ steps r = p_steps p /\
       sleep_hours r = p_sleep_hours p /\
       deep_sleep_min r = p_deep_sleep_min p /\
       min_heart_rate r = p_min_heart_rate p /\
       max_heart_rate r = p_max_heart_rate p /\
       body_weight r = p_body_weight p) /\
      (date r = row_date py mapping row /\
       int_field py mapping row "steps" = Ok (steps r) /\
       (exists raw_sleep,
           float_field py mapping row "sleep_hours" = Ok raw_sleep /\
           sleep_hours r = sleep_unit_heuristic raw_sleep) /\
       int_field py mapping row "deep_sleep_min" = Ok (deep_sleep_min r) /\
       int_field py mapping row "min_heart_rate" = Ok (min_heart_rate r) /\
       int_field py mapping row "max_heart_rate" = Ok (max_heart_rate r) /\
       float_field py mapping row "body_weight" = Ok (body_weight r)).
Proof.
  intros py db df mapping db' n pre row post p Hsave Hrows Hd Hp Hpost.
  unfold save_zepp_data in Hsave.
  destruct (save_rows py mapping (iterrows df) db 0) as [[work c]|e] eqn:E;
    [|discriminate].
  injection Hsave as <- _. rewrite Hrows in E.
  destruct (save_rows_last py mapping pre row post p _ _ _ _ E Hd Hp Hpost)
    as [i Hi].
  exists (row_of i p). split; [exact Hi|].
  destruct (row_params_fields py mapping row p Hp)
    as (Hsteps & Hsleep & Hdeep & Hmin & Hmax & Hweight).
  split; [repeat split|].
  split; [exact (row_params_date py mapping row p Hp)|].
  repeat split; assumption.
Qed.

Lemma same_date_one_record_latest_fields_witness :
  exists r,
    filter (has_date "2024-01-01")
      (rows (fst (save_zepp_data Ref.reflib Sample.four_days Sample.two_formats
                    (resolve_mapping (columns Sample.two_formats)))))
    = [r] /\
    date r = "2024-01-01" /\ steps r = 250 /\ sleep_hours r = Fin 0 /\
    deep_sleep_min r = 0 /\ min_heart_rate r = 0 /\ max_heart_rate r = 0 /\
    body_weight r = Fin 0.
Proof.
  destruct (same_date_one_record_latest_fields Ref.reflib Sample.four_days
              Sample.two_formats (resolve_mapping (columns Sample.two_formats))
              (fst (save_zepp_data Ref.reflib Sample.four_days
                      Sample.two_formats
                      (resolve_mapping (columns Sample.two_formats))))
              2%nat
              [ [("date", CStr "2024-01-01"); ("steps", CInt 100)] ]
              [("date", CStr "2024-01-01 08:00:00"); ("steps", CInt 250)]
              [] Sample.two_formats_params)
    as (r & Hone & (Hdate & Hsteps & Hsleep & Hdeep & Hmin & Hmax & Hweight)
          & _).
  - vm_compute. reflexivity.
  - reflexivity.
  - reflexivity.
  - vm_compute. reflexivity.
  - intros row' [].
  - exists r. split; [exact Hone|]. repeat split; assumption.
Defined.

(** The two rows of [Sample.two_formats] leave one record, under a new key. *)
Example two_formats_import :
  save_zepp_data Ref.reflib empty_table Sample.two_formats
    (resolve_mapping (columns Sample.two_formats))
  = (mkTable [mkRow 2 "2024-01-01" 250 (Fin 0) 0 0 0 (Fin 0)] 2,
     [St_success 2]).
Proof. vm_compute. reflexivity. Qed.

(** A later file for the same day replaces the record as a whole: the steps
    of the first import are gone, not merged. *)
Example two_imports_same_day :
  let db1 := fst (save_zepp_data Ref.reflib empty_table Sample.two_formats
                    (resolve_mapping (columns Sample.two_formats))) in
  save_zepp_data Ref.reflib db1 Sample.weight_only
    (resolve_mapping (columns Sample.weight_only))
  = (mkTable [mkRow 3 "2024-01-01" 0 (Fin 0) 0 0 0 (Fin 70.5)] 3,
     [St_success 1]).
Proof. vm_compute. reflexivity. Qed.

(** C10. A replacing upsert deletes the record of that date and inserts the
    new one under a key that is larger than every key in the table and than
    every key handed out before, hence different from the key of the record
    it replaces; the records of the other dates are the same rows as
    before. *)
Theorem replace_gives_fresh_id :
  forall (t : table) (p : params) (t' : table) (old : zepp_row),
    insert_or_replace t p = Ok t' ->
    In old (rows t) -> date old = p_date p ->
    exists i,
      filter (has_date (p_date p)) (rows t') = [row_of i p] /\
      id old < i /\ seq t < i /\
      (forall r, In r (rows t) -> id r < i) /\
      ~ In old (rows t') /\
      (forall r, date r <> p_date p -> (In r (rows t') <-> In r (rows t))) /\
      (forall d, d <> p_date p ->
                 filter (has_date d) (rows t') = filter (has_date d) (rows t)).
Proof.
  intros t p t' old H Hold Hdate.
  pose proof (insert_or_replace_rows _ _ _ H) as (i & Hi & _ & Hrows).
  pose proof (new_rowid_fresh _ _ Hi) as [Hseq Hids].
  exists i. repeat split.
  - rewrite Hrows, filter_app, filter_filter_negb. simpl.
    rewrite has_date_row_of. reflexivity.
  - apply Hids. exact Hold.
  - exact Hseq.
  - exact Hids.
  - rewrite Hrows. intros Hin. apply in_app_or in Hin.
    destruct Hin as [Hin | [Heq | []]].
    + apply filter_In in Hin. destruct Hin as [_ Hin].
      apply (proj2 (has_date_iff _ _)) in Hdate. rewrite Hdate in Hin.
      discriminate.
    + specialize (Hids old Hold). rewrite <- Heq in Hids. simpl in Hids. lia.
  - rewrite Hrows. intros Hin. apply in_app_or in Hin.
    destruct Hin as [Hin | [Heq | []]].
    + apply filter_In in Hin. tauto.
    + subst r. simpl in H0. contradiction.
  - rewrite Hrows. intros Hin. apply in_or_app. left. apply filter_In.
    split; [exact Hin|]. destruct (has_date (p_date p) r) eqn:E; [|reflexivity].
    apply has_date_iff in E. contradiction.
  - intros d Hd. apply (upsert_other_date _ _ _ _ H). congruence.
Qed.

Lemma replace_gives_fresh_id_witness :
  exists i,
    filter (has_date "2024-05-03")
      (rows (mkTable
               [ Sample.weighed 1 "2024-05-01" 0 7;
                 Sample.weighed 2 "2024-05-02" 0 8;
                 Sample.weighed 4 "2024-05-04" 0 7;
                 row_of 5 (mkParams "2024-05-03" 9000 (Fin 7) 0 0 0 (Fin 0)) ]
               5))
    = [row_of i (mkParams "2024-05-03" 9000 (Fin 7) 0 0 0 (Fin 0))] /\
    3 < i.
Proof.
  destruct (replace_gives_fresh_id Sample.four_days
              (mkParams "2024-05-03" 9000 (Fin 7) 0 0 0 (Fin 0))
              (mkTable
                 [ Sample.weighed 1 "2024-05-01" 0 7;
                   Sample.weighed 2 "2024-05-02" 0 8;
                   Sample.weighed 4 "2024-05-04" 0 7;
                   row_of 5 (mkParams "2024-05-03" 9000 (Fin 7) 0 0 0 (Fin 0)) ]
                 5)
              (Sample.weighed 3 "2024-05-03" 62.3 6))
    as (i & Hone & Hlt & _).
  - vm_compute. reflexivity.
  - simpl. tauto.
  - reflexivity.
  - exists i. split; [exact Hone | exact Hlt].
Defined.

(* ------------------------------------------------------------------------- *)
(** * The import: numeric cells *)

Section Coercion.
Variable py : pylib.
Variable mapping : dict.

Lemma field_of_falsy row key :
  truthy (series_get row (dict_get key mapping) (CInt 0)) = false ->
  int_field py mapping row key = Ok 0 /\
  float_field py mapping row key = Ok (Fin 0).
Proof.
  intros H. unfold int_field, float_field, py_or. rewrite H. split; reflexivity.
Qed.

Lemma series_get_absent row key label :
  dict_get key mapping = Some label -> series_find label row = None ->
  series_get row (dict_get key mapping) (CInt 0) = CInt 0.
Proof. intros -> H. simpl. rewrite H. reflexivity. Qed.

End Coercion.

(** C2, as the code has it. A numeric field is zero when its column is not
    in the file or its cell is falsy (0, 0.0, False, empty text). A cell that
    int() or float() rejects raises: the loop stops there, the error is shown
    and, the only commit standing after the loop, the table is left as it was
    before the import, whichever rows of the file came before. *)
Theorem coercion_failure_aborts_batch :
  forall (py : pylib) (db : table) (df : dataframe) (mapping : dict),
    (forall row key,
        truthy (series_get row (dict_get key mapping) (CInt 0)) = false ->
        int_field py mapping row key = Ok 0 /\
        float_field py mapping row key = Ok (Fin 0)) /\
    (forall row key label,
        dict_get key mapping = Some label -> series_find label row = None ->
        int_field py mapping row key = Ok 0 /\
        float_field py mapping row key = Ok (Fin 0)) /\
    (forall row e,
        In row (iterrows df) -> has_date_cell mapping row = true ->
        row_params py mapping row = Raise e ->
        exists e',
          save_zepp_data py db df mapping = (db, [St_error (ErrSave e')])).
Proof.
  intros py db df mapping. split; [|split].
  - intros row key. apply field_of_falsy.
  - intros row key label Hk Hf. apply field_of_falsy.
    rewrite (series_get_absent mapping row key label Hk Hf). reflexivity.
  - intros row e Hin Hd Hp.
    destruct (save_rows_raise py mapping _ row e db 0%nat Hin Hd Hp) as [e' He'].
    exists e'. unfold save_zepp_data. rewrite He'. reflexivity.
Qed.

Lemma coercion_failure_aborts_batch_witness :
  exists e',
    save_zepp_data Ref.reflib Sample.four_days Sample.bad_steps
      (resolve_mapping (columns Sample.bad_steps))
    = (Sample.four_days, [St_error (ErrSave e')]).
Proof.
  apply (proj2 (proj2 (coercion_failure_aborts_batch Ref.reflib
                         Sample.four_days Sample.bad_steps
                         (resolve_mapping (columns Sample.bad_steps))))
           [("date", CStr "2024-01-02"); ("steps", CStr "abc")] ValueError).
  - simpl. tauto.
  - reflexivity.
  - vm_compute. reflexivity.
Defined.

(** The claim of C2 fails on [Sample.bad_steps]: the text "abc" in the steps
    of the second row does not become 0; the import stops with an error and
    none of the three rows is stored, not even the first. *)
Lemma unparseable_cell_not_zero_counterexample :
  let out := save_zepp_data Ref.reflib empty_table Sample.bad_steps
               (resolve_mapping (columns Sample.bad_steps)) in
  snd out = [St_error (ErrSave ValueError)] /\
  ~ (exists r, In r (rows (fst out)) /\ date r = "2024-01-02" /\ steps r = 0) /\
  ~ (exists r, In r (rows (fst out)) /\ date r = "2024-01-01") /\
  ~ (exists r, In r (rows (fst out)) /\ date r = "2024-01-03").
Proof.
  vm_compute. repeat split; intros (r & [] & _).
Qed.

(* ------------------------------------------------------------------------- *)
(** * The import: sleep in minutes or hours *)

Lemma fgt_24 (v : Q) :
  fgt (Fin v) (Fin 24) = if Qlt_le_dec 24 v then true else false.
Proof.
  simpl. destruct (Qlt_le_dec 24 v) as [Hlt | Hle].
  - destruct (Qle_bool v 24) eqn:E; [|reflexivity].
    apply Qle_bool_iff in E. exfalso. exact (Qlt_not_le _ _ Hlt E).
  - apply Qle_bool_iff in Hle. rewrite Hle. reflexivity.
Qed.

(** C3. The sleep value of a row is divided by 60 when it exceeds 24 and kept
    otherwise: 30 gives 1/2, 7 gives 7, 24 gives 24; and this is the value
    that every imported row hands to the table. *)
Theorem sleep_unit_heuristic_spec :
  (forall v : Q,
      sleep_unit_heuristic (Fin v)
      = Fin (if Qlt_le_dec 24 v then (v / 60)%Q else v)) /\
  (exists r, sleep_unit_heuristic (Fin 30) = Fin r /\ (r == 1 # 2)%Q) /\
  sleep_unit_heuristic (Fin 7) = Fin 7 /\
  sleep_unit_heuristic (Fin 24) = Fin 24 /\
  (forall (py : pylib) (mapping : dict) (row : series) (p : params),
      row_params py mapping row = Ok p ->
      exists raw_sleep,
        float_field py mapping row "sleep_hours" = Ok raw_sleep /\
        p_sleep_hours p = sleep_unit_heuristic raw_sleep).
Proof.
  split; [|split; [|split; [|split]]].
  - intros v. unfold sleep_unit_heuristic. rewrite fgt_24.
    destruct (Qlt_le_dec 24 v); reflexivity.
  - exists (30 / 60)%Q. split; reflexivity.
  - reflexivity.
  - reflexivity.
  - intros py mapping row p. apply row_params_sleep.
Qed.

Lemma sleep_unit_heuristic_spec_witness :
  exists raw_sleep,
    float_field Ref.reflib (resolve_mapping (columns Sample.time_header))
      [("Time", CStr "2024-03-05 14:30:00"); ("steps", CInt 8000);
       ("totalSleep", CInt 450)] "sleep_hours" = Ok raw_sleep /\
    p_sleep_hours Sample.time_header_params = sleep_unit_heuristic raw_sleep.
Proof.
  apply (proj2 (proj2 (proj2 (proj2 sleep_unit_heuristic_spec))) Ref.reflib).
  vm_compute. reflexivity.
Defined.

(* ------------------------------------------------------------------------- *)
(** * The import: the date of a row *)

Section Strings.

Lemma length_app (a b : string) :
  String.length (a ++ b) = (String.length a + String.length b)%nat.
Proof. induction a as [|c a IH]; simpl; [reflexivity | now rewrite IH]. Qed.

Lemma slice_to_prefix (n : nat) (s : string) :
  exists rest,
    s = (slice_to n s ++ rest)%string /\
    String.length (slice_to n s) = Nat.min n (String.length s).
Proof.
  unfold slice_to. revert s. induction n as [|n IH]; intros s.
  - exists s. destruct s; split; reflexivity.
  - destruct s as [|c s].
    + exists EmptyString. split; reflexivity.
    + destruct (IH s) as (rest & Hs & Hl). exists rest. simpl. split.
      * f_equal. exact Hs.
      * f_equal. exact Hl.
Qed.

Lemma slice_to_short (n : nat) (s : string) :
  (String.length s <= n)%nat -> slice_to n s = s.
Proof.
  unfold slice_to. revert s. induction n as [|n IH]; intros s H.
  - destruct s; [reflexivity | simpl in H; lia].
  - destruct s as [|c s]; [reflexivity|]. simpl. f_equal. apply IH.
    simpl in H. lia.
Qed.


(** The fields of [strftime("%Y-%m-%d")] have their full width. *)
Lemma decimal_width (w : nat) (hi : Z) :
  forallb (fun n => (String.length (decimal (Z.of_nat n)) <=? w)%nat)
          (List.seq 0 (Z.to_nat hi)) = true ->
  forall n, 0 <= n < hi -> (String.length (decimal n) <= w)%nat.
Proof.
  intros Hall n Hn. rewrite forallb_forall in Hall.
  specialize (Hall (Z.to_nat n)). rewrite Z2Nat.id in Hall by lia.
  apply Nat.leb_le, Hall, in_seq. lia.
Qed.

Lemma zfill_length (w : nat) (n : Z) :
  (String.length (decimal n) <= w)%nat -> String.length (zfill w n) = w.
Proof.
  intros H. unfold zfill. rewrite length_app.
  assert (Hz : forall k, String.length (zeros k) = k)
    by (induction k; simpl; congruence).
  rewrite Hz. lia.
Qed.

Lemma decimal_length (w : nat) (lo hi : Z) :
  forallb (fun n => (String.length (decimal (lo + Z.of_nat n)) =? w)%nat)
          (List.seq 0 (Z.to_nat (hi - lo))) = true ->
  forall n, lo <= n < hi -> String.length (decimal n) = w.
Proof.
  intros Hall n Hn. rewrite forallb_forall in Hall.
  specialize (Hall (Z.to_nat (n - lo))).
  replace (lo + Z.of_nat (Z.to_nat (n - lo))) with n in Hall by lia.
  apply Nat.eqb_eq, Hall, in_seq. lia.
Qed.

Lemma zfill2_length (n : Z) :
  0 <= n <= 31 -> String.length (zfill 2 n) = 2%nat.
Proof.
  intros H. apply zfill_length.
  apply (decimal_width 2 32); [vm_compute; reflexivity | lia].
Qed.

Lemma year_length (y : Z) :
  1000 <= y <= 9999 -> String.length (decimal y) = 4%nat.
Proof.
  intros H.
  apply (decimal_length 4 1000 10000); [vm_compute; reflexivity | lia].
Qed.

Lemma strftime_ymd_length (ts : timestamp) :
  1000 <= year ts <= 9999 -> 0 <= month ts <= 12 -> 0 <= day ts <= 31 ->
  String.length (strftime_ymd ts) = 10%nat.
Proof.
  intros Hy Hm Hd. unfold strftime_ymd. rewrite !length_app. simpl.
  rewrite (year_length _ Hy), !zfill2_length by lia. reflexivity.
Qed.

Lemma strftime_ymd_length_le (ts : timestamp) :
  0 <= year ts <= 9999 -> 0 <= month ts <= 12 -> 0 <= day ts <= 31 ->
  (String.length (strftime_ymd ts) <= 10)%nat.
Proof.
  intros Hy Hm Hd. unfold strftime_ymd. rewrite !length_app. simpl.
  rewrite !zfill2_length by lia.
  assert (String.length (decimal (year ts)) <= 4)%nat
    by (apply (decimal_width 4 10000); [vm_compute; reflexivity | lia]).
  lia.
Qed.

End Strings.



(** A year below 1000 keeps its three digits. *)
Example strftime_ymd_year_999 :
  strftime_ymd (mkTimestamp 999 1 1 0 0 0) = "999-01-01".
Proof. reflexivity. Qed.

(** The parsed branch yields ten characters for a date of the years 1000 to
    9999, and fewer for an earlier year. *)
Lemma long_date_text_parsed_length (py : pylib) (d : string) (ts : timestamp) :
  (10 < String.length d)%nat -> to_datetime py d = Some ts ->
  1000 <= year ts <= 9999 -> 0 <= month ts <= 12 -> 0 <= day ts <= 31 ->
  String.length (normalize_date py d) = 10%nat.
Proof.
  intros Hlen Hts Hy Hm Hd. unfold normalize_date.
  replace (10 <? String.length d)%nat with true
    by (symmetry; apply Nat.ltb_lt; lia).
  rewrite Hts. apply strftime_ymd_length; assumption.
Qed.

(** C9. A date text of at most 10 characters is stored as it is: nothing is
    parsed, whatever the text and whatever the library would say of it. *)
Theorem short_date_text_verbatim :
  forall (py : pylib) (d : string),
    (String.length d <= 10)%nat ->
    normalize_date py d = d /\
    (forall mapping row p t t',
       py_str py (series_get row (dict_get "date" mapping) (CInt 0)) = d ->
       row_params py mapping row = Ok p ->
       insert_or_replace t p = Ok t' ->
       p_date p = d /\
       exists i, filter (has_date d) (rows t') = [row_of i p]).
Proof.
  intros py d Hlen.
  assert (Hn : normalize_date py d = d).
  { unfold normalize_date.
    replace (10 <? String.length d)%nat with false
      by (symmetry; apply Nat.ltb_ge; lia).
    reflexivity. }
  split; [exact Hn|].
  intros mapping row p t t' Hcell Hp Hins.
  pose proof (row_params_date py mapping row p Hp) as Hdate.
  unfold row_date in Hdate. rewrite Hcell, Hn in Hdate. split; [exact Hdate|].
  rewrite <- Hdate. exact (upsert_same_date _ _ _ Hins).
Qed.

Lemma short_date_text_verbatim_witness :
  normalize_date Ref.reflib "hello" = "hello".
Proof.
  apply (proj1 (short_date_text_verbatim Ref.reflib "hello"
                  ltac:(simpl; lia))).
Defined.

(** Both branches at work on [Sample.odd_dates]. *)
Example odd_dates_import :
  map date
    (rows (fst (save_zepp_data Ref.reflib empty_table Sample.odd_dates
                  (resolve_mapping (columns Sample.odd_dates)))))
  = ["hello"; "not-a-date"].
Proof. vm_compute. reflexivity. Qed.

(* ------------------------------------------------------------------------- *)
(** * The column mapper *)

Section Mapper.

Lemma prefix_iff (a s : string) :
  prefix a s = true <-> exists b, s = (a ++ b)%string.
Proof.
  revert s. induction a as [|c a IH]; intros s.
  - split; [intros _; exists s; reflexivity | intros _; destruct s; reflexivity].
  - destruct s as [|c' s]; simpl.
    + split; [discriminate | intros [b Hb]; discriminate].
    + destruct (ascii_dec c c') as [<- | Hne].
      * rewrite IH. split; intros [b Hb]; exists b; [now rewrite Hb|].
        now injection Hb.
      * split; [discriminate | intros [b Hb]; injection Hb; congruence].
Qed.

Lemma contains_iff (sub s : string) :
  contains sub s = true <-> exists a b, s = (a ++ sub ++ b)%string.
Proof.
  induction s as [|c s IH].
  - change (contains sub EmptyString) with (prefix sub EmptyString || false).
    rewrite orb_false_r, prefix_iff. split.
    + intros [b Hb]. exists EmptyString, b. exact Hb.
    + intros (a & b & H). destruct a; [exists b; exact H | discriminate].
  - change (contains sub (String c s))
      with (prefix sub (String c s) || contains sub s).
    rewrite orb_true_iff, prefix_iff, IH. split.
    + intros [[b Hb] | (a & b & H)].
      * exists EmptyString, b. exact Hb.
      * exists (String c a), b. simpl. now rewrite H.
    + intros (a & b & H). destruct a as [|c' a].
      * left. exists b. exact H.
      * right. exists a, b. simpl in H. now injection H.
Qed.

Lemma mem_iff (x : string) (l : list string) : mem x l = true <-> In x l.
Proof.
  unfold mem. rewrite existsb_exists. split.
  - intros (y & Hy & E). apply String.eqb_eq in E. now subst.
  - intros H. exists x. split; [exact H | apply String.eqb_refl].
Qed.

Lemma dict_get_set_other (k k' v : string) (d : dict) :
  k <> k' -> dict_get k (dict_set k' v d) = dict_get k d.
Proof.
  intros Hne. induction d as [|[k0 v0] d IH]; simpl.
  - destruct (k' =? k)%string eqn:E; [|reflexivity].
    apply String.eqb_eq in E. congruence.
  - destruct (k0 =? k')%string eqn:E'; simpl.
    + apply String.eqb_eq in E'. subst k0.
      destruct (k' =? k)%string eqn:E; [|reflexivity].
      apply String.eqb_eq in E. congruence.
    + destruct (k0 =? k)%string; [reflexivity | exact IH].
Qed.

Lemma series_find_absent (l : string) (cols : list string) :
  ~ In l cols -> forall vals, series_find l (combine cols vals) = None.
Proof.
  induction cols as [|c cols IH]; intros Hn vals; [reflexivity|].
  destruct vals as [|v vals]; [reflexivity|]. simpl.
  destruct (c =? l)%string eqn:E.
  - apply String.eqb_eq in E. exfalso. apply Hn. left. exact E.
  - apply IH. intros H. apply Hn. right. exact H.
Qed.

Lemma available_iff (cols : list string) (mapping : dict) (v : string) :
  In v (available_columns cols mapping) <->
  In v (dict_values mapping) /\ In v cols.
Proof. unfold available_columns. rewrite filter_In, mem_iff. tauto. Qed.

End Mapper.

(** C5. A header is date-like when its lower-case form contains "date" or
    "time". In a file without a [date] header the date key goes to the first
    date-like header in the order of the file (and stays as it was when there
    is none); every other key keeps its expected header whatever the file
    holds, so that a field whose header is missing is not among the
    recognized columns and no row has a cell for it. A file with the headers
    [Time, steps, totalSleep] gets the date key [Time]. *)
Theorem date_column_fallback :
  (forall c : string,
      date_like c = true <->
      (exists a b, lower c = (a ++ "date" ++ b)%string) \/
      (exists a b, lower c = (a ++ "time" ++ b)%string)) /\
  (forall cols : list string,
      mem "date" cols = false ->
      (forall pre c post,
          cols = pre ++ c :: post -> date_like c = true ->
          (forall x, In x pre -> date_like x = false) ->
          dict_get "date" (resolve_mapping cols) = Some c) /\
      ((forall x, In x cols -> date_like x = false) ->
       resolve_mapping cols = default_mapping) /\
      (forall k, k <> "date" ->
                 dict_get k (resolve_mapping cols)
                 = dict_get k default_mapping) /\
      (forall k v,
          k <> "date" -> dict_get k (resolve_mapping cols) = Some v ->
          mem v cols = false ->
          ~ In v (available_columns cols (resolve_mapping cols)) /\
          forall vals,
            series_get (combine cols vals)
              (dict_get k (resolve_mapping cols)) (CInt 0) = CInt 0)) /\
  dict_get "date" (resolve_mapping (columns Sample.time_header)) = Some "Time".
Proof.
  split; [|split].
  - intros c. unfold date_like.
    rewrite orb_true_iff, !contains_iff. reflexivity.
  - intros cols Hno. unfold resolve_mapping. rewrite Hno. simpl negb. cbv iota.
    split; [|split; [|split]].
    + intros pre c post -> Hc Hpre. unfold possible_date_cols.
      rewrite filter_app, (filter_none _ _ Hpre). simpl. rewrite Hc.
      reflexivity.
    + intros Hnone. unfold possible_date_cols.
      rewrite (filter_none _ _ Hnone). reflexivity.
    + intros k Hk. destruct (possible_date_cols cols); [reflexivity|].
      apply dict_get_set_other. exact Hk.
    + intros k v _ Hget Hv. split.
      * intros Hin. apply available_iff in Hin. destruct Hin as [_ Hin].
        apply mem_iff in Hin. congruence.
      * intros vals. rewrite Hget. simpl.
        rewrite series_find_absent; [reflexivity|].
        intros Hin. apply mem_iff in Hin. congruence.
  - reflexivity.
Qed.

Lemma date_column_fallback_witness :
  dict_get "date" (resolve_mapping ["steps"; "Time"; "update"]) = Some "Time".
Proof.
  apply (proj1 (proj1 (proj2 date_column_fallback)
                  ["steps"; "Time"; "update"] eq_refl)
           ["steps"] "Time" ["update"]).
  - reflexivity.
  - reflexivity.
  - intros x [<- | []]. reflexivity.
Defined.

(** C6. When no value of the resolved mapping is a column of the parsed
    table, [process_zepp_csv] shows the no-recognized-columns error with the
    headers of the file and returns neither table nor mapping; otherwise it
    returns the table with the resolved mapping and shows the recognized
    columns, which are the mapping values that are columns of the table. *)
Theorem no_recognized_columns_or_mapping :
  forall df : dataframe,
    ((forall v, In v (dict_values (resolve_mapping (columns df))) ->
                ~ In v (columns df)) ->
     process_zepp_csv (Ok df)
     = ((None, None), [St_error ErrNoColumns; St_write (columns df)])) /\
    (forall v,
        In v (dict_values (resolve_mapping (columns df))) ->
        In v (columns df) ->
        process_zepp_csv (Ok df)
        = ((Some df, Some (resolve_mapping (columns df))),
           [St_info (available_columns (columns df)
                       (resolve_mapping (columns df)))])) /\
    (forall v,
        In v (available_columns (columns df) (resolve_mapping (columns df)))
        <-> In v (dict_values (resolve_mapping (columns df))) /\
            In v (columns df)).
Proof.
  intros df. split; [|split].
  - intros Hnone. unfold process_zepp_csv.
    replace (available_columns (columns df) (resolve_mapping (columns df)))
      with (@nil string); [reflexivity|].
    symmetry. apply filter_none. intros v Hv.
    destruct (mem v (columns df)) eqn:E; [|reflexivity].
    apply mem_iff in E. exfalso. exact (Hnone v Hv E).
  - intros v Hv Hc. unfold process_zepp_csv.
    destruct (available_columns (columns df) (resolve_mapping (columns df)))
      as [|a l] eqn:E; [|reflexivity].
    assert (Hin : In v (available_columns (columns df)
                          (resolve_mapping (columns df))))
      by (apply available_iff; split; assumption).
    rewrite E in Hin. destruct Hin.
  - intros v. apply available_iff.
Qed.

Lemma no_recognized_columns_or_mapping_witness :
  process_zepp_csv (Ok Sample.unknown_headers)
  = ((None, None), [St_error ErrNoColumns; St_write ["day"; "passi"]]) /\
  process_zepp_csv (Ok Sample.time_header)
  = ((Some Sample.time_header,
      Some (resolve_mapping (columns Sample.time_header))),
     [St_info ["Time"; "steps"; "totalSleep"]]).
Proof.
  split.
  - apply (proj1 (no_recognized_columns_or_mapping Sample.unknown_headers)).
    intros v Hv Hc. simpl in Hv, Hc.
    repeat (destruct Hv as [<- | Hv];
            [repeat (destruct Hc as [Hc | Hc]; try discriminate Hc);
             exact Hc|]).
    exact Hv.
  - apply (proj1 (proj2 (no_recognized_columns_or_mapping Sample.time_header))
             "steps"); simpl; tauto.
Defined.

(* ------------------------------------------------------------------------- *)
(** * The dashboard *)

Section Query.

Lemma insert_by_date_perm r l : Permutation (insert_by_date r l) (r :: l).
Proof.
  induction l as [|r' l IH]; simpl; [apply Permutation_refl|].
  destruct (date r <=? date r')%string; [apply Permutation_refl|].
  eapply perm_trans; [apply perm_skip, IH | apply perm_swap].
Qed.

Lemma order_by_date_perm l : Permutation (order_by_date l) l.
Proof.
  induction l as [|r l IH]; simpl; [apply perm_nil|].
  eapply perm_trans; [apply insert_by_date_perm | apply perm_skip, IH].
Qed.

Lemma insert_by_date_hd a r l :
  date_le a r -> HdRel date_le a l -> HdRel date_le a (insert_by_date r l).
Proof.
  intros Har Hl. destruct l as [|r' l]; simpl; [constructor; exact Har|].
  destruct (date r <=? date r')%string; constructor;
    [exact Har | inversion Hl; assumption].
Qed.

Lemma insert_by_date_sorted r l :
  Sorted date_le l -> Sorted date_le (insert_by_date r l).
Proof.
  induction l as [|r' l IH]; intros Hs; simpl.
  - repeat constructor.
  - destruct (date r <=? date r')%string eqn:E.
    + constructor; [exact Hs | constructor; exact E].
    + inversion Hs as [|? ? Hs' Hhd]; subst. constructor; [apply IH, Hs'|].
      apply insert_by_date_hd; [|exact Hhd]. unfold date_le.
      destruct (String.leb_total (date r) (date r')) as [H | H];
        [congruence | exact H].
Qed.

Lemma order_by_date_sorted l : Sorted date_le (order_by_date l).
Proof.
  induction l as [|r l IH]; simpl;
    [constructor | apply insert_by_date_sorted, IH].
Qed.

Lemma curr_weight_last (df : list zepp_row) :
  curr_weight df =
  match rev (filter valid_weight df) with
  | [] => None
  | r :: _ => Some (body_weight r)
  end.
Proof. destruct df; reflexivity. Qed.

Lemma present_fin (qs : list Q) : present (map Fin qs) = qs.
Proof. induction qs as [|q qs IH]; simpl; [reflexivity | now rewrite IH]. Qed.

End Query.

(** C7. On the rows that the query hands over in ascending order of date,
    the current weight is the body weight of the last row whose body weight
    is greater than zero, and "N/A" when no row has one; the weights
    0, 0, 62.3, 0 give 62.3. *)
Theorem latest_positive_weight :
  (forall r, valid_weight r = true <->
             exists w, body_weight r = Fin w /\ (0 < w)%Q) /\
  (forall df pre r post,
      df = pre ++ r :: post -> valid_weight r = true ->
      (forall x, In x post -> valid_weight x = false) ->
      curr_weight df = Some (body_weight r)) /\
  (forall df, (forall x, In x df -> valid_weight x = false) ->
              curr_weight df = None) /\
  (forall cutoff db,
      fst (dashboard cutoff db) = curr_weight (select_since cutoff db) /\
      Sorted date_le (select_since cutoff db)) /\
  (map body_weight (select_since "2024-04-10" Sample.four_days)
   = [Fin 0; Fin 0; Fin 62.3; Fin 0] /\
   fst (dashboard "2024-04-10" Sample.four_days) = Some (Fin 62.3)).
Proof.
  split; [|split; [|split; [|split]]].
  - intros r. unfold valid_weight. destruct (body_weight r) as [w|]; simpl.
    + split.
      * intros H. exists w. split; [reflexivity|].
        destruct (Qle_bool w 0) eqn:E; [discriminate|].
        apply Qnot_le_lt. intros Hle. apply Qle_bool_iff in Hle. congruence.
      * intros (w' & Hw & Hpos). injection Hw as <-.
        destruct (Qle_bool w 0) eqn:E; [|reflexivity].
        apply Qle_bool_iff in E. exfalso. exact (Qlt_not_le _ _ Hpos E).
    + split; [discriminate | intros (w & Hw & _); discriminate].
  - intros df pre r post -> Hr Hpost. rewrite curr_weight_last.
    rewrite filter_app. simpl. rewrite Hr, (filter_none _ _ Hpost).
    rewrite rev_app_distr. reflexivity.
  - intros df Hnone. rewrite curr_weight_last, (filter_none _ _ Hnone).
    reflexivity.
  - intros cutoff db. split; [reflexivity|]. apply order_by_date_sorted.
  - split; vm_compute; reflexivity.
Qed.

Lemma latest_positive_weight_witness :
  curr_weight (rows Sample.four_days) = Some (Fin 62.3).
Proof.
  apply (proj1 (proj2 latest_positive_weight) (rows Sample.four_days)
           [Sample.weighed 1 "2024-05-01" 0 7; Sample.weighed 2 "2024-05-02" 0 8]
           (Sample.weighed 3 "2024-05-03" 62.3 6)
           [Sample.weighed 4 "2024-05-04" 0 7]).
  - reflexivity.
  - reflexivity.
  - intros x [<- | []]. reflexivity.
Defined.

(** C8. The average sleep is computed on the rows whose date is not before
    the cutoff (today minus 30 days): it is 0 when there is no such row,
    and otherwise the sum of their sleep hours divided by their number
    (a row without a sleep value is not counted). *)
Theorem average_sleep_is_mean :
  forall (cutoff : string) (db : table),
    Permutation (select_since cutoff db)
      (filter (fun r => (cutoff <=? date r)%string) (rows db)) /\
    snd (dashboard cutoff db) = avg_sleep (select_since cutoff db) /\
    (select_since cutoff db = [] ->
     avg_sleep (select_since cutoff db) = Fin 0) /\
    (forall qs,
        select_since cutoff db <> [] ->
        map sleep_hours (select_since cutoff db) = map Fin qs ->
        avg_sleep (select_since cutoff db)
        = Fin (Qsum qs / inject_Z (Z.of_nat (length qs)))) /\
    (forall qs,
        select_since cutoff db <> [] ->
        present (map sleep_hours (select_since cutoff db)) = qs ->
        qs <> [] ->
        avg_sleep (select_since cutoff db)
        = Fin (Qsum qs / inject_Z (Z.of_nat (length qs)))).
Proof.
  intros cutoff db.
  assert (Hgen : forall qs,
             select_since cutoff db <> [] ->
             present (map sleep_hours (select_since cutoff db)) = qs ->
             qs <> [] ->
             avg_sleep (select_since cutoff db)
             = Fin (Qsum qs / inject_Z (Z.of_nat (length qs)))).
  { intros qs Hne Hqs Hq. unfold avg_sleep, series_mean.
    destruct (select_since cutoff db) as [|r sel]; [contradiction|].
    rewrite Hqs. destruct qs; [contradiction | reflexivity]. }
  split; [|split; [|split; [|split]]].
  - apply order_by_date_perm.
  - reflexivity.
  - intros ->. reflexivity.
  - intros qs Hne Hmap. apply Hgen; [exact Hne | |].
    + rewrite Hmap. apply present_fin.
    + intros ->. apply Hne. destruct (select_since cutoff db);
        [reflexivity | discriminate].
  - exact Hgen.
Qed.

Lemma average_sleep_is_mean_witness :
  avg_sleep (select_since "2024-04-10" Sample.four_days)
  = Fin (Qsum [7; 8; 6; 7]%Q / inject_Z 4) /\
  avg_sleep (select_since "2024-06-01" Sample.four_days) = Fin 0.
Proof.
  split.
  - apply (proj1 (proj2 (proj2 (proj2 (average_sleep_is_mean "2024-04-10"
                                         Sample.four_days))))
             [7; 8; 6; 7]%Q).
    + vm_compute. discriminate.
    + vm_compute. reflexivity.
  - apply (proj1 (proj2 (proj2 (average_sleep_is_mean "2024-06-01"
                                  Sample.four_days)))).
    vm_compute. reflexivity.
Defined.

(* ------------------------------------------------------------------------- *)
(** * The table stays well formed *)

Section Invariant.

Lemma NoDup_map_filter {A B} (g : A -> B) (f : A -> bool) (l : list A) :
  NoDup (map g l) -> NoDup (map g (filter f l)).
Proof.
  induction l as [|a l IH]; simpl; intros H; [constructor|].
  inversion H as [|? ? Hnin Hnd]; subst.
  destruct (f a); simpl; [constructor|]; [|apply IH, Hnd | apply IH, Hnd].
  intros Hin. apply Hnin. apply in_map_iff in Hin.
  destruct Hin as (x & Hx & Hin). apply filter_In in Hin.
  apply in_map_iff. exists x. tauto.
Qed.

Lemma empty_table_ok : table_ok empty_table.
Proof. repeat split; try constructor; simpl in *; contradiction. Qed.

Lemma insert_or_replace_ok t p t' :
  table_ok t -> insert_or_replace t p = Ok t' -> table_ok t'.
Proof.
  intros (Hdates & Hids & Hrange) H.
  pose proof (insert_or_replace_rows _ _ _ H) as (i & Hi & Hseq & Hrows).
  pose proof (new_rowid_fresh _ _ Hi) as [Hlt Hfresh].
  unfold table_ok. rewrite Hrows, Hseq, !map_app. simpl.
  split; [|split].
  - apply NoDup_app; [apply NoDup_map_filter, Hdates | repeat constructor; tauto|].
    intros d Hd [<- | []]. apply in_map_iff in Hd.
    destruct Hd as (r & Hr & Hin). apply filter_In in Hin.
    destruct Hin as [_ Hin]. apply (proj2 (has_date_iff _ _)) in Hr.
    rewrite Hr in Hin. discriminate.
  - apply NoDup_app; [apply NoDup_map_filter, Hids | repeat constructor; tauto|].
    intros k Hk [<- | []]. apply in_map_iff in Hk.
    destruct Hk as (r & Hr & Hin). apply filter_In in Hin.
    destruct Hin as [Hin _]. specialize (Hfresh r Hin). lia.
  - intros r Hin. apply in_app_or in Hin. destruct Hin as [Hin | [<- | []]].
    + apply filter_In in Hin. destruct Hin as [Hin _].
      specialize (Hrange r Hin). specialize (Hfresh r Hin). lia.
    + simpl. unfold new_rowid in Hi.
      destruct (largest_rowid (rows t)) as [m|] eqn:E.
      * destruct ((seq t =? MAX_ROWID) || (MAX_ROWID <=? m)); [discriminate|].
        injection Hi as <-. destruct (rows t) as [|r0 l]; [discriminate|].
        pose proof (largest_rowid_bound _ _ E r0 (or_introl eq_refl)).
        pose proof (Hrange r0 (or_introl eq_refl)). lia.
      * destruct (seq t =? MAX_ROWID); [discriminate|].
        injection Hi as <-. lia.
Qed.

Lemma save_rows_ok py mapping rs : forall work c work' c',
  table_ok work -> save_rows py mapping rs work c = Ok (work', c') ->
  table_ok work'.
Proof.
  induction rs as [|row rs IH]; intros work c work' c' Hok H.
  - simpl in H. injection H as <- _. exact Hok.
  - destruct (has_date_cell mapping row) eqn:E.
    + apply save_rows_cons in H; [|exact E].
      destruct H as (p & work1 & _ & Hw & H).
      exact (IH _ _ _ _ (insert_or_replace_ok _ _ _ Hok Hw) H).
    + rewrite save_rows_skip in H by exact E. exact (IH _ _ _ _ Hok H).
Qed.

(** Whatever the file, an import leaves a well-formed table well formed. *)
Lemma save_zepp_data_ok py db df mapping :
  table_ok db -> table_ok (fst (save_zepp_data py db df mapping)).
Proof.
  intros Hok. unfold save_zepp_data.
  destruct (save_rows py mapping (iterrows df) db 0) as [[work c]|e] eqn:E;
    simpl; [|exact Hok].
  exact (save_rows_ok _ _ _ _ _ _ _ Hok E).
Qed.

End Invariant.

(* ------------------------------------------------------------------------- *)
(** * Further properties of the import *)

Section ImportFacts.
Variable py : pylib.
Variable mapping : dict.

Lemma holds_date_insert t p t' d :
  insert_or_replace t p = Ok t' ->
  (holds_date t' d <-> holds_date t d \/ d = p_date p).
Proof.
  intros H. apply insert_or_replace_rows in H.
  destruct H as (i & _ & _ & Hrows). unfold holds_date. rewrite Hrows. split.
  - intros (r & Hin & Hd). apply in_app_or in Hin.
    destruct Hin as [Hin | [<- | []]].
    + left. apply filter_In in Hin. exists r. tauto.
    + right. symmetry. exact Hd.
  - intros [(r & Hin & Hd) | ->].
    + destruct (String.eqb_spec d (p_date p)) as [-> | Hne].
      * exists (row_of i p). split; [|reflexivity].
        apply in_or_app. right. left. reflexivity.
      * exists r. split; [|exact Hd]. apply in_or_app. left.
        apply filter_In. split; [exact Hin|].
        destruct (has_date (p_date p) r) eqn:E; [|reflexivity].
        apply has_date_iff in E. congruence.
    + exists (row_of i p). split; [|reflexivity].
      apply in_or_app. right. left. reflexivity.
Qed.

Lemma save_rows_dates rs : forall work c work' c' d,
  save_rows py mapping rs work c = Ok (work', c') ->
  (holds_date work' d <-> holds_date work d \/ writes_date py mapping rs d).
Proof.
  induction rs as [|row rs IH]; intros work c work' c' d H.
  - simpl in H. injection H as <- _. split; [tauto|].
    intros [H | (row & [] & _)]. exact H.
  - destruct (has_date_cell mapping row) eqn:E.
    + apply save_rows_cons in H; [|exact E].
      destruct H as (p & work1 & Hp & Hw & H).
      rewrite (IH _ _ _ _ d H), (holds_date_insert _ _ _ d Hw).
      rewrite (row_params_date _ _ _ _ Hp). unfold writes_date. split.
      * intros [[Hh | ->] | (r & Hin & Hc & Hd)]; [tauto | |].
        -- right. exists row. simpl. tauto.
        -- right. exists r. simpl. tauto.
      * intros [Hh | (r & [<- | Hin] & Hc & Hd)]; [tauto | |].
        -- left. right. symmetry. exact Hd.
        -- right. exists r. tauto.
    + rewrite save_rows_skip in H by exact E.
      rewrite (IH _ _ _ _ d H). unfold writes_date. split.
      * intros [Hh | (r & Hin & Hc & Hd)]; [tauto|].
        right. exists r. simpl. tauto.
      * intros [Hh | (r & [<- | Hin] & Hc & Hd)]; [tauto | congruence |].
        right. exists r. tauto.
Qed.

Lemma save_rows_count rs : forall work c work' c',
  save_rows py mapping rs work c = Ok (work', c') ->
  c' = (c + length (filter (has_date_cell mapping) rs))%nat.
Proof.
  induction rs as [|row rs IH]; intros work c work' c' H.
  - simpl in H. injection H as _ <-. simpl. lia.
  - simpl filter. destruct (has_date_cell mapping row) eqn:E.
    + apply save_rows_cons in H; [|exact E].
      destruct H as (p & work1 & _ & _ & H).
      rewrite (IH _ _ _ _ H). simpl. lia.
    + rewrite save_rows_skip in H by exact E. exact (IH _ _ _ _ H).
Qed.

Lemma save_rows_coerced rs : forall work c out row,
  save_rows py mapping rs work c = Ok out ->
  In row rs -> has_date_cell mapping row = true ->
  exists p, row_params py mapping row = Ok p /\ bindable p = true.
Proof.
  induction rs as [|r rs IH]; intros work c out row H Hin Hc; [contradiction|].
  destruct (has_date_cell mapping r) eqn:E.
  - apply save_rows_cons in H; [|exact E].
    destruct H as (p & work1 & Hp & Hw & H). destruct Hin as [<- | Hin].
    + exists p. split; [exact Hp|]. unfold insert_or_replace in Hw.
      destruct (bindable p); [reflexivity | discriminate].
    + exact (IH _ _ _ _ H Hin Hc).
  - rewrite save_rows_skip in H by exact E. destruct Hin as [<- | Hin].
    + congruence.
    + exact (IH _ _ _ _ H Hin Hc).
Qed.

(** Either some row is the last one of the batch to write the date [d], or
    no row writes it. *)
Lemma last_writer rs d :
  (exists pre row post,
      rs = pre ++ row :: post /\ has_date_cell mapping row = true /\
      row_date py mapping row = d /\
      forall row', In row' post -> has_date_cell mapping row' = true ->
                   row_date py mapping row' <> d) \/
  (forall row, In row rs -> has_date_cell mapping row = true ->
               row_date py mapping row <> d).
Proof.
  induction rs as [|r rs IH].
  - right. intros row [].
  - destruct IH as [(pre & row & post & -> & Hc & Hd & Hpost) | Hnone].
    + left. exists (r :: pre), row, post. auto.
    + destruct (has_date_cell mapping r) eqn:E.
      * destruct (String.eqb_spec (row_date py mapping r) d) as [Heq | Hne].
        -- left. exists [], r, rs. auto.
        -- right. intros row [<- | Hin] Hc; [exact Hne | exact (Hnone _ Hin Hc)].
      * right. intros row [<- | Hin] Hc; [congruence | exact (Hnone _ Hin Hc)].
Qed.

Lemma series_has_absent (l : string) (cols : list string) :
  ~ In l cols -> forall vals, series_has (Some l) (combine cols vals) = false.
Proof.
  induction cols as [|c cols IH]; intros Hn vals; [reflexivity|].
  destruct vals as [|v vals]; [reflexivity|]. simpl.
  destruct (c =? l)%string eqn:E.
  - apply String.eqb_eq in E. exfalso. apply Hn. left. exact E.
  - apply IH. intros H. apply Hn. right. exact H.
Qed.

Lemma series_has_present (l : string) (cols : list string) :
  In l cols -> forall vals, length vals = length cols ->
  series_has (Some l) (combine cols vals) = true.
Proof.
  induction cols as [|c cols IH]; intros Hin vals Hlen; [contradiction|].
  destruct vals as [|v vals]; [discriminate|]. simpl.
  destruct (c =? l)%string eqn:E; [reflexivity|]. simpl.
  destruct Hin as [-> | Hin]; [rewrite String.eqb_refl in E; discriminate|].
  apply IH; [exact Hin | simpl in Hlen; lia].
Qed.

Lemma insert_or_replace_seq t p t' :
  table_ok t -> 0 <= seq t -> insert_or_replace t p = Ok t' ->
  seq t' = seq t + 1.
Proof.
  intros (_ & _ & Hrange) Hseq H.
  apply insert_or_replace_rows in H. destruct H as (i & Hi & -> & _).
  unfold new_rowid in Hi. destruct (largest_rowid (rows t)) as [m|] eqn:E.
  - destruct ((seq t =? MAX_ROWID) || (MAX_ROWID <=? m)); [discriminate|].
    injection Hi as <-. assert (m <= seq t); [|lia].
    clear - E Hrange. revert m E.
    induction (rows t) as [|r l IH]; intros m E; [discriminate|].
    simpl in E. destruct (largest_rowid l) as [m'|].
    + injection E as <-. pose proof (Hrange r (or_introl eq_refl)).
      assert (m' <= seq t)
        by (apply IH; [intros; apply Hrange; right; assumption | reflexivity]).
      lia.
    + injection E as <-. apply (Hrange r (or_introl eq_refl)).
  - destruct (seq t =? MAX_ROWID); [discriminate|]. injection Hi as <-. lia.
Qed.

Lemma insert_or_replace_succeeds t p :
  table_ok t -> 0 <= seq t < MAX_ROWID -> bindable p = true ->
  exists t', insert_or_replace t p = Ok t'.
Proof.
  intros (_ & _ & Hrange) Hseq Hb. unfold insert_or_replace, new_rowid.
  rewrite Hb. simpl.
  assert (Hne : (seq t =? MAX_ROWID) = false) by (apply Z.eqb_neq; lia).
  rewrite Hne. destruct (largest_rowid (rows t)) as [m|] eqn:E; simpl.
  - assert (Hm : (MAX_ROWID <=? m) = false).
    { apply Z.leb_gt. destruct (rows t) as [|r l] eqn:Er; [discriminate|].
      assert (exists r', In r' (r :: l) /\ id r' = m) as (r' & Hin & <-).
      { clear - E. revert m E. generalize r.
        induction l as [|a l IH]; intros r0 m E; simpl in E.
        - injection E as <-. exists r0. simpl. tauto.
        - destruct (largest_rowid l) as [m'|] eqn:El.
          + injection E as <-.
            destruct (IH a (Z.max (id a) m')) as (r' & Hin & Hr').
            { simpl. rewrite El. reflexivity. }
            destruct (Z.max_spec (id r0) (Z.max (id a) m')) as [[_ ->] | [_ ->]].
            * exists r'. split; [right; exact Hin | exact Hr'].
            * exists r0. simpl. tauto.
          + apply largest_rowid_none in El. subst l. injection E as <-.
            destruct (Z.max_spec (id r0) (id a)) as [[_ ->] | [_ ->]].
            * exists a. simpl. tauto.
            * exists r0. simpl. tauto. }
      pose proof (Hrange r' Hin). lia. }
    rewrite Hm. eexists. reflexivity.
  - eexists. reflexivity.
Qed.

End ImportFacts.

Section ImportLoopFacts.
Variable py : pylib.
Variable mapping : dict.

Lemma field_of_nan row key label :
  dict_get key mapping = Some label ->
  series_find label row = Some (CFloat NaN) ->
  int_field py mapping row key = Raise ValueError /\
  float_field py mapping row key = Ok NaN.
Proof.
  intros Hk Hf. unfold int_field, float_field. rewrite Hk. simpl.
  rewrite Hf. split; reflexivity.
Qed.

Lemma save_rows_seq rs : forall work c work' c',
  table_ok work -> 0 <= seq work ->
  save_rows py mapping rs work c = Ok (work', c') ->
  seq work' = seq work + Z.of_nat (c' - c).
Proof.
  induction rs as [|row rs IH]; intros work c work' c' Hok Hseq H.
  - simpl in H. injection H as <- <-. rewrite Nat.sub_diag. simpl. lia.
  - destruct (has_date_cell mapping row) eqn:E.
    + apply save_rows_cons in H; [|exact E].
      destruct H as (p & work1 & _ & Hw & H).
      pose proof (insert_or_replace_seq _ _ _ Hok Hseq Hw) as H1.
      pose proof (save_rows_count _ _ _ _ _ _ _ H) as Hc.
      rewrite (IH _ _ _ _ (insert_or_replace_ok _ _ _ Hok Hw)
                 ltac:(lia) H).
      lia.
    + rewrite save_rows_skip in H by exact E. exact (IH _ _ _ _ Hok Hseq H).
Qed.

Lemma save_rows_succeeds rs : forall work c,
  table_ok work -> 0 <= seq work ->
  seq work + Z.of_nat (length rs) <= MAX_ROWID ->
  (forall row, In row rs -> has_date_cell mapping row = true ->
               exists p, row_params py mapping row = Ok p /\
                         bindable p = true) ->
  exists work' c', save_rows py mapping rs work c = Ok (work', c').
Proof.
  induction rs as [|row rs IH]; intros work c Hok Hseq Hmax Hrows.
  - exists work, c. reflexivity.
  - simpl length in Hmax.
    destruct (has_date_cell mapping row) eqn:E.
    + destruct (Hrows row (or_introl eq_refl) E) as (p & Hp & Hb).
      destruct (insert_or_replace_succeeds work p Hok ltac:(lia) Hb)
        as [work1 Hw].
      pose proof (insert_or_replace_seq _ _ _ Hok Hseq Hw) as H1.
      destruct (IH work1 (S c) (insert_or_replace_ok _ _ _ Hok Hw)
                  ltac:(lia) ltac:(lia)
                  ltac:(intros; apply Hrows; [right|]; assumption))
        as (work' & c' & H).
      exists work', c'. simpl. unfold has_date_cell in E. rewrite E. simpl.
      rewrite Hp. simpl. rewrite Hw. simpl. exact H.
    + rewrite save_rows_skip by exact E.
      apply IH; [exact Hok | exact Hseq | lia |].
      intros; apply Hrows; [right|]; assumption.
Qed.

End ImportLoopFacts.

(** X1. Every table that imports build up from the empty table is well
    formed: no two records share a date or a key, and every key lies between
    1 and the counter of the table, whatever the files hold and whether an
    import ends well or not. *)
Theorem imports_keep_table_well_formed :
  forall (py : pylib) (files : list (dataframe * dict)),
    table_ok (import_all py files empty_table) /\
    0 <= seq (import_all py files empty_table).
Proof.
  intros py files. unfold import_all.
  assert (H : table_ok empty_table /\ 0 <= seq empty_table)
    by (split; [apply empty_table_ok | simpl; lia]).
  revert H. generalize empty_table.
  induction files as [|[df mapping] files IH]; intros db [Hok Hseq]; simpl.
  - split; assumption.
  - apply IH. split; [apply save_zepp_data_ok, Hok|].
    unfold save_zepp_data.
    destruct (save_rows py mapping (iterrows df) db 0) as [[w c]|e] eqn:E;
      simpl; [|exact Hseq].
    rewrite (save_rows_seq _ _ _ _ _ _ _ Hok Hseq E). lia.
Qed.

(** X2. After an import that ends well the table holds a record for exactly
    the dates it held before and the dates of the rows of the file: no date
    is lost and none appears that the file does not name. *)
Theorem import_dates_union :
  forall (py : pylib) (db : table) (df : dataframe) (mapping : dict)
         (db' : table) (n : nat),
    save_zepp_data py db df mapping = (db', [St_success n]) ->
    forall d,
      holds_date db' d <->
      holds_date db d \/ writes_date py mapping (iterrows df) d.
Proof.
  intros py db df mapping db' n H d. unfold save_zepp_data in H.
  destruct (save_rows py mapping (iterrows df) db 0) as [[w c]|e] eqn:E;
    [|discriminate].
  injection H as <- _. exact (save_rows_dates _ _ _ _ _ _ _ d E).
Qed.

Lemma import_dates_union_witness :
  holds_date
    (fst (save_zepp_data Ref.reflib Sample.four_days Cases.three_days
            (resolve_mapping (columns Cases.three_days))))
    "2024-05-05".
Proof.
  apply (proj2 (import_dates_union Ref.reflib Sample.four_days
                  Cases.three_days
                  (resolve_mapping (columns Cases.three_days)) _ 3%nat
                  ltac:(vm_compute; reflexivity) "2024-05-05")).
  right.
  exists [("date", CStr "2024-05-05"); ("steps", CInt 5000);
          ("weight", CFloat NaN)].
  repeat split. simpl. tauto.
Defined.

(** X3. Importing the same file a second time changes no value: for every
    date the records hold the same seven values after the second import as
    after the first (only their keys are new), and the same number of rows
    is reported. *)
Theorem reimport_same_values :
  forall (py : pylib) (db : table) (df : dataframe) (mapping : dict)
         (db1 db2 : table) (n1 n2 : nat),
    save_zepp_data py db df mapping = (db1, [St_success n1]) ->
    save_zepp_data py db1 df mapping = (db2, [St_success n2]) ->
    n2 = n1 /\
    forall d,
      map params_of (filter (has_date d) (rows db2))
      = map params_of (filter (has_date d) (rows db1)).
Proof.
  intros py db df mapping db1 db2 n1 n2 H1 H2. unfold save_zepp_data in H1, H2.
  destruct (save_rows py mapping (iterrows df) db 0) as [[w1 c1]|e] eqn:E1;
    [|discriminate].
  destruct (save_rows py mapping (iterrows df) db1 0) as [[w2 c2]|e] eqn:E2;
    [|discriminate].
  injection H1 as <- <-. injection H2 as <- <-. split.
  - rewrite (save_rows_count _ _ _ _ _ _ _ E1),
            (save_rows_count _ _ _ _ _ _ _ E2). reflexivity.
  - intros d.
    destruct (last_writer py mapping (iterrows df) d)
      as [(pre & row & post & Hrs & Hc & Hd & Hpost) | Hnone].
    + assert (Hin : In row (iterrows df))
        by (rewrite Hrs; apply in_or_app; right; left; reflexivity).
      destruct (save_rows_coerced _ _ _ _ _ _ _ E1 Hin Hc) as (p & Hp & _).
      pose proof (row_params_date _ _ _ _ Hp) as Hpd.
      rewrite Hrs in E1, E2. rewrite <- Hd, <- Hpd.
      rewrite <- Hd, <- Hpd in Hpost.
      destruct (save_rows_last _ _ _ _ _ _ _ _ _ _ E1 Hc Hp Hpost) as [i1 ->].
      destruct (save_rows_last _ _ _ _ _ _ _ _ _ _ E2 Hc Hp Hpost) as [i2 ->].
      reflexivity.
    + rewrite (save_rows_other_dates _ _ _ _ _ _ _ _ E2 Hnone). reflexivity.
Qed.

Lemma reimport_same_values_witness :
  map params_of
    (filter (has_date "2024-05-03")
       (rows (fst (save_zepp_data Ref.reflib
                     (fst (save_zepp_data Ref.reflib Sample.four_days
                             Cases.three_days
                             (resolve_mapping (columns Cases.three_days))))
                     Cases.three_days
                     (resolve_mapping (columns Cases.three_days))))))
  = map params_of
      (filter (has_date "2024-05-03")
         (rows (fst (save_zepp_data Ref.reflib Sample.four_days
                       Cases.three_days
                       (resolve_mapping (columns Cases.three_days)))))).
Proof.
  exact (proj2 (reimport_same_values Ref.reflib Sample.four_days
                  Cases.three_days
                  (resolve_mapping (columns Cases.three_days))
                  _ _ 3%nat 3%nat
                  ltac:(vm_compute; reflexivity)
                  ltac:(vm_compute; reflexivity))
           "2024-05-03").
Defined.

(** X4. When the header that the mapping gives for the date is not a header
    of the file, the import stores nothing and still reports success, with a
    count of 0. The column mapper lets such a file through: a file without
    [date] and without any date-like header, but with another known header,
    is returned with the default mapping, and saving it changes nothing. *)
Theorem no_date_column_no_record :
  forall (py : pylib) (db : table) (df : dataframe),
    (forall mapping,
        (forall l, dict_get "date" mapping = Some l -> ~ In l (columns df)) ->
        save_zepp_data py db df mapping = (db, [St_success 0])) /\
    (mem "date" (columns df) = false ->
     (forall c, In c (columns df) -> date_like c = false) ->
     forall df' mapping,
       fst (process_zepp_csv (Ok df)) = (Some df', Some mapping) ->
       save_zepp_data py db df' mapping = (db, [St_success 0])).
Proof.
  intros py db df.
  assert (Hgen : forall mapping,
             (forall l, dict_get "date" mapping = Some l ->
                        ~ In l (columns df)) ->
             save_zepp_data py db df mapping = (db, [St_success 0])).
  { intros mapping Hno. unfold save_zepp_data, iterrows.
    assert (H : forall vals c,
               save_rows py mapping
                 (map (fun r => combine (columns df) r) vals) db c
               = Ok (db, c)).
    { induction vals as [|r vals IH]; intros c; [reflexivity|]. simpl.
      replace (series_has (dict_get "date" mapping) (combine (columns df) r))
        with false; [apply IH|].
      destruct (dict_get "date" mapping) as [l|] eqn:E; [|reflexivity].
      symmetry. apply series_has_absent. apply Hno. reflexivity. }
    rewrite H. reflexivity. }
  split; [exact Hgen|].
  intros Hdate Hnone df' mapping Hret. unfold process_zepp_csv in Hret.
  assert (Hmap : resolve_mapping (columns df) = default_mapping).
  { unfold resolve_mapping, possible_date_cols. rewrite Hdate.
    rewrite (filter_none _ _ Hnone). reflexivity. }
  rewrite Hmap in Hret.
  destruct (available_columns (columns df) default_mapping) as [|a avail];
    [discriminate|].
  injection Hret as <- <-. apply Hgen. intros l Hl. simpl in Hl.
  injection Hl as <-. intros Hin. apply mem_iff in Hin. congruence.
Qed.

Lemma no_date_column_no_record_witness :
  save_zepp_data Ref.reflib Sample.four_days Cases.no_date default_mapping
  = (Sample.four_days, [St_success 0]).
Proof.
  apply (proj2 (no_date_column_no_record Ref.reflib Sample.four_days
                  Cases.no_date) eq_refl).
  - intros c [<- | [<- | []]]; reflexivity.
  - reflexivity.
Defined.

(** X5. The count that a successful import reports is the number of rows of
    the file that have the date column, which is every row when the date
    header is in the file; and on a well-formed table the key counter has
    advanced by exactly that count, replaced records included. *)
Theorem import_count_and_sequence :
  forall (py : pylib) (db : table) (df : dataframe) (mapping : dict)
         (db' : table) (n : nat),
    table_ok db -> 0 <= seq db ->
    save_zepp_data py db df mapping = (db', [St_success n]) ->
    n = length (filter (has_date_cell mapping) (iterrows df)) /\
    seq db' = seq db + Z.of_nat n /\
    (forall l, dict_get "date" mapping = Some l -> In l (columns df) ->
               full_width df -> n = length (values df)).
Proof.
  intros py db df mapping db' n Hok Hseq H. unfold save_zepp_data in H.
  destruct (save_rows py mapping (iterrows df) db 0) as [[w c]|e] eqn:E;
    [|discriminate].
  injection H as <- <-.
  pose proof (save_rows_count _ _ _ _ _ _ _ E) as Hc. simpl in Hc.
  split; [exact Hc | split].
  - rewrite (save_rows_seq _ _ _ _ _ _ _ Hok Hseq E). f_equal. f_equal. lia.
  - intros l Hl Hin Hfull. rewrite Hc. unfold iterrows, full_width in *.
    clear - Hl Hin Hfull. induction (values df) as [|r vals IH];
      [reflexivity|].
    simpl. unfold has_date_cell at 1. rewrite Hl.
    rewrite (series_has_present l _ Hin r (Hfull r (or_introl eq_refl))).
    simpl. f_equal. apply IH. intros r' Hr'. apply Hfull. right. exact Hr'.
Qed.

Lemma four_days_ok : table_ok Sample.four_days.
Proof.
  repeat split.
  - repeat constructor; simpl; intuition discriminate.
  - repeat constructor; simpl; intuition discriminate.
  - simpl in H. destruct H as [<- | [<- | [<- | [<- | []]]]]; simpl; lia.
  - simpl in H. destruct H as [<- | [<- | [<- | [<- | []]]]]; simpl; lia.
Qed.

Lemma import_count_and_sequence_witness :
  seq (fst (save_zepp_data Ref.reflib Sample.four_days Cases.three_days
              (resolve_mapping (columns Cases.three_days))))
  = seq Sample.four_days + Z.of_nat 3.
Proof.
  apply (import_count_and_sequence Ref.reflib Sample.four_days
           Cases.three_days (resolve_mapping (columns Cases.three_days))
           _ 3%nat).
  - exact four_days_ok.
  - simpl. lia.
  - vm_compute. reflexivity.
Defined.

(** X6. An import ends well whenever the table is well formed, the key
    counter leaves room for the rows of the file, and every row that has the
    date column coerces to values that fit 64-bit integers: nothing else
    makes [save_zepp_data] fail. *)
Theorem import_succeeds_when_rows_coerce :
  forall (py : pylib) (db : table) (df : dataframe) (mapping : dict),
    table_ok db -> 0 <= seq db ->
    seq db + Z.of_nat (length (values df)) <= MAX_ROWID ->
    (forall row, In row (iterrows df) -> has_date_cell mapping row = true ->
                 exists p, row_params py mapping row = Ok p /\
                           bindable p = true) ->
    exists db',
      save_zepp_data py db df mapping
      = (db', [St_success
                 (length (filter (has_date_cell mapping) (iterrows df)))]).
Proof.
  intros py db df mapping Hok Hseq Hmax Hrows.
  assert (Hlen : length (iterrows df) = length (values df))
    by (unfold iterrows; apply length_map).
  destruct (save_rows_succeeds py mapping (iterrows df) db 0%nat Hok Hseq
              ltac:(rewrite Hlen; exact Hmax) Hrows) as (w & c & H).
  exists w. unfold save_zepp_data. rewrite H.
  rewrite (save_rows_count _ _ _ _ _ _ _ H). reflexivity.
Qed.

Lemma import_succeeds_when_rows_coerce_witness :
  exists db',
    save_zepp_data Ref.reflib empty_table Sample.two_formats
      (resolve_mapping (columns Sample.two_formats))
    = (db', [St_success 2]).
Proof.
  apply (import_succeeds_when_rows_coerce Ref.reflib empty_table
           Sample.two_formats (resolve_mapping (columns Sample.two_formats))).
  - apply empty_table_ok.
  - simpl. lia.
  - vm_compute. discriminate.
  - intros row [<- | [<- | []]] _.
    + exists (mkParams "2024-01-01" 100 (Fin 0) 0 0 0 (Fin 0)).
      split; vm_compute; reflexivity.
    + exists Sample.two_formats_params. split; vm_compute; reflexivity.
Defined.

(** X7. An empty cell in one of the four integer columns (pandas reads it as
    NaN, which [or 0] lets through) makes [int] raise: the import is aborted
    and the table is left as it was. *)
Theorem empty_integer_cell_aborts :
  forall (py : pylib) (db : table) (df : dataframe) (mapping : dict)
         (row : series) (key label : string),
    In key int_keys ->
    In row (iterrows df) -> has_date_cell mapping row = true ->
    dict_get key mapping = Some label ->
    series_find label row = Some (CFloat NaN) ->
    exists e,
      save_zepp_data py db df mapping = (db, [St_error (ErrSave e)]).
Proof.
  intros py db df mapping row key label Hkey Hin Hc Hk Hf.
  destruct (field_of_nan py mapping row key label Hk Hf) as [Hint _].
  destruct (row_params py mapping row) as [p|e0] eqn:Hp.
  - exfalso.
    destruct (row_params_fields py mapping row p Hp)
      as (H1 & _ & H3 & H4 & H5 & _).
    unfold int_keys in Hkey.
    destruct Hkey as [<- | [<- | [<- | [<- | []]]]]; congruence.
  - destruct (save_rows_raise py mapping _ row e0 db 0%nat Hin Hc Hp)
      as [e He].
    exists e. unfold save_zepp_data. rewrite He. reflexivity.
Qed.

Lemma empty_integer_cell_aborts_witness :
  exists e,
    save_zepp_data Ref.reflib Sample.four_days Cases.empty_steps
      (resolve_mapping (columns Cases.empty_steps))
    = (Sample.four_days, [St_error (ErrSave e)]).
Proof.
  apply (empty_integer_cell_aborts Ref.reflib Sample.four_days
           Cases.empty_steps (resolve_mapping (columns Cases.empty_steps))
           [("date", CStr "2024-01-02"); ("steps", CFloat NaN)]
           "steps" "steps").
  - simpl. tauto.
  - simpl. tauto.
  - reflexivity.
  - reflexivity.
  - reflexivity.
Defined.

(** X8. An empty cell in the weight or the sleep column is not turned into
    zero: the row is stored with a missing weight, or missing sleep hours. *)
Theorem empty_float_cell_stored_missing :
  forall (py : pylib) (mapping : dict) (row : series) (p : params)
         (label : string),
    row_params py mapping row = Ok p ->
    series_find label row = Some (CFloat NaN) ->
    (dict_get "body_weight" mapping = Some label -> p_body_weight p = NaN) /\
    (dict_get "sleep_hours" mapping = Some label -> p_sleep_hours p = NaN).
Proof.
  intros py mapping row p label Hp Hf.
  destruct (row_params_fields py mapping row p Hp)
    as (_ & (raw & Hraw & Hs) & _ & _ & _ & Hw).
  split; intros Hk;
    destruct (field_of_nan py mapping row _ label Hk Hf) as [_ Hnan].
  - congruence.
  - rewrite Hs. replace raw with NaN by congruence. reflexivity.
Qed.

Lemma empty_float_cell_stored_missing_witness :
  p_body_weight (mkParams "2024-05-05" 5000 (Fin 0) 0 0 0 NaN) = NaN.
Proof.
  apply (proj1 (empty_float_cell_stored_missing Ref.reflib
                  (resolve_mapping (columns Cases.three_days))
                  [("date", CStr "2024-05-05"); ("steps", CInt 5000);
                   ("weight", CFloat NaN)]
                  (mkParams "2024-05-05" 5000 (Fin 0) 0 0 0 NaN) "weight"
                  ltac:(vm_compute; reflexivity) eq_refl)).
  reflexivity.
Defined.

(* ------------------------------------------------------------------------- *)
(** * Further properties of the stored values *)

Lemma normalize_date_short (py : pylib) (d : string) :
  (String.length d <= 10)%nat -> normalize_date py d = d.
Proof.
  intros H. unfold normalize_date.
  replace (10 <? String.length d)%nat with false
    by (symmetry; apply Nat.ltb_ge; exact H).
  reflexivity.
Qed.

(** X9. When the date-time parser answers with calendar dates, the date that
    is stored for a cell never has more than 10 characters, and normalizing
    it again changes nothing: a stored date read back from the table and
    imported anew lands on the same record. *)
Theorem stored_date_at_most_ten :
  forall (py : pylib) (d : string),
    (forall ts, to_datetime py d = Some ts -> calendar ts) ->
    (String.length (normalize_date py d) <= 10)%nat /\
    normalize_date py (normalize_date py d) = normalize_date py d.
Proof.
  intros py d Hcal.
  assert (Hlen : (String.length (normalize_date py d) <= 10)%nat).
  { destruct (Nat.leb_spec (String.length d) 10) as [Hs | Hl].
    - rewrite (normalize_date_short py d Hs). exact Hs.
    - unfold normalize_date.
      replace (10 <? String.length d)%nat with true
        by (symmetry; apply Nat.ltb_lt; exact Hl).
      destruct (to_datetime py d) as [ts|] eqn:E.
      + destruct (Hcal ts eq_refl) as (Hy & Hm & Hd).
        exact (strftime_ymd_length_le ts Hy Hm Hd).
      + destruct (slice_to_prefix 10 d) as (rest & _ & Hl10).
        rewrite Hl10. lia. }
  split; [exact Hlen | apply normalize_date_short, Hlen].
Qed.

Lemma stored_date_at_most_ten_witness :
  (String.length (normalize_date Ref.reflib "2024-03-05 14:30:00") <= 10)%nat.
Proof.
  apply (stored_date_at_most_ten Ref.reflib "2024-03-05 14:30:00").
  intros ts H. vm_compute in H. injection H as <-.
  unfold calendar. simpl. lia.
Defined.

(** X10. For a raw sleep value that is not negative, the stored sleep hours
    are not negative either, and they stay within the 24 hours of a day
    exactly when the raw value is at most 1440, the minutes of a day. *)
Theorem sleep_hours_within_a_day :
  forall v : Q,
    (0 <= v)%Q ->
    exists r,
      sleep_unit_heuristic (Fin v) = Fin r /\ (0 <= r)%Q /\
      ((r <= 24)%Q <-> (v <= 1440)%Q).
Proof.
  intros v Hv. unfold sleep_unit_heuristic. rewrite fgt_24.
  destruct (Qlt_le_dec 24 v) as [Hgt | Hle]; simpl.
  - exists (v / 60)%Q. split; [reflexivity|]. split.
    + apply Qle_shift_div_l; lra.
    + split; intros H.
      * destruct (Qlt_le_dec 1440 v) as [Hbig | Hok]; [|exact Hok].
        exfalso. assert (24 < v / 60)%Q by (apply Qlt_shift_div_l; lra). lra.
      * apply Qle_shift_div_r; lra.
  - exists v. split; [reflexivity|]. split; [exact Hv|]. split; intros; lra.
Qed.

Lemma sleep_hours_within_a_day_witness :
  exists r,
    sleep_unit_heuristic (Fin 450) = Fin r /\ (0 <= r)%Q /\
    ((r <= 24)%Q <-> (450 <= 1440)%Q).
Proof.
  apply (sleep_hours_within_a_day 450). discriminate.
Defined.

(* ------------------------------------------------------------------------- *)
(** * Further properties of the KPI cards *)

Section Kpi.

Lemma Qsum_nonneg (qs : list Q) :
  (forall x, In x qs -> (0 <= x)%Q) -> (0 <= Qsum qs)%Q.
Proof.
  induction qs as [|x qs IH]; intros H.
  - change (Qsum []) with 0%Q. lra.
  - change (Qsum (x :: qs)) with (x + Qsum qs)%Q.
    pose proof (H x (or_introl eq_refl)).
    assert (0 <= Qsum qs)%Q by (apply IH; intros y Hy; apply H; right; exact Hy).
    lra.
Qed.

Lemma Qsum_pos_term (qs : list Q) :
  (0 < Qsum qs)%Q -> exists x, In x qs /\ (0 < x)%Q.
Proof.
  induction qs as [|x qs IH]; intros H.
  - change (Qsum []) with 0%Q in H. lra.
  - change (Qsum (x :: qs)) with (x + Qsum qs)%Q in H.
    destruct (Qlt_le_dec 0 x) as [Hx | Hx].
    + exists x. split; [left; reflexivity | exact Hx].
    + destruct IH as (y & Hy & Hpos); [lra|].
      exists y. split; [right; exact Hy | exact Hpos].
Qed.

Lemma present_In (l : list pyfloat) (x : Q) :
  In x (present l) -> In (Fin x) l.
Proof.
  induction l as [|[q|] l IH]; simpl; [tauto | | tauto].
  intros [<- | H]; [left; reflexivity | right; exact (IH H)].
Qed.

Lemma length_pos_Q {A} (l : list A) :
  l <> [] -> (0 < inject_Z (Z.of_nat (length l)))%Q.
Proof.
  intros H. destruct l as [|a l]; [contradiction|].
  change 0%Q with (inject_Z 0). rewrite <- Zlt_Qlt. simpl length. lia.
Qed.

End Kpi.

(** X11. The average sleep has the sign of its values: it is not negative
    when no sleep value present is negative, and it is positive only when
    some row has positive sleep hours. *)
Theorem average_sleep_sign :
  forall (df_zepp : list zepp_row) (q : Q),
    avg_sleep df_zepp = Fin q ->
    ((forall x, In x (present (map sleep_hours df_zepp)) -> (0 <= x)%Q) ->
     (0 <= q)%Q) /\
    ((0 < q)%Q ->
     exists r x, In r df_zepp /\ sleep_hours r = Fin x /\ (0 < x)%Q).
Proof.
  intros df q H. unfold avg_sleep, series_mean in H.
  destruct df as [|r df]; [injection H as <-; split; intros; lra|].
  destruct (present (map sleep_hours (r :: df))) as [|x qs] eqn:E;
    [discriminate|].
  injection H as <-.
  pose proof (length_pos_Q (x :: qs) ltac:(discriminate)) as Hpos.
  split.
  - intros Hall. apply Qle_shift_div_l; [exact Hpos|].
    rewrite Qmult_0_l. exact (Qsum_nonneg (x :: qs) Hall).
  - intros Hq.
    assert (Hsum : (0 < Qsum (x :: qs))%Q).
    { destruct (Qlt_le_dec 0 (Qsum (x :: qs))) as [Hs | Hs]; [exact Hs|].
      exfalso. apply (Qlt_not_le _ _ Hq).
      apply Qle_shift_div_r; [exact Hpos | rewrite Qmult_0_l; exact Hs]. }
    destruct (Qsum_pos_term _ Hsum) as (y & Hy & Hypos).
    rewrite <- E in Hy. apply present_In in Hy. apply in_map_iff in Hy.
    destruct Hy as (r' & Hr' & Hin). exists r', y. auto.
Qed.

Lemma average_sleep_sign_witness :
  exists r x, In r (rows Sample.four_days) /\ sleep_hours r = Fin x /\ (0 < x)%Q.
Proof.
  apply (proj2 (average_sleep_sign (rows Sample.four_days)
                  (Qsum [7; 8; 6; 7]%Q / inject_Z 4) eq_refl)).
  reflexivity.
Defined.

(** X12. The current weight, when one is shown, is the positive body weight
    of one of the rows: the card never shows zero, a negative number or a
    missing value. *)
Theorem current_weight_is_positive :
  forall (df_zepp : list zepp_row) (w : pyfloat),
    curr_weight df_zepp = Some w ->
    exists q r, w = Fin q /\ (0 < q)%Q /\ In r df_zepp /\ body_weight r = w.
Proof.
  intros df w H. rewrite curr_weight_last in H.
  destruct (rev (filter valid_weight df)) as [|r l] eqn:E; [discriminate|].
  injection H as <-.
  assert (Hin : In r (filter valid_weight df)).
  { apply in_rev. rewrite E. left. reflexivity. }
  apply filter_In in Hin. destruct Hin as [Hin Hv].
  unfold valid_weight in Hv. destruct (body_weight r) as [q|] eqn:Eq;
    [|discriminate].
  exists q, r. repeat split; try assumption. simpl in Hv.
  destruct (Qle_bool q 0) eqn:Eb; [discriminate|].
  apply Qnot_le_lt. intros Hle. apply Qle_bool_iff in Hle. congruence.
Qed.

Lemma current_weight_is_positive_witness :
  exists q r,
    Fin 62.3 = Fin q /\ (0 < q)%Q /\ In r (rows Sample.four_days) /\
    body_weight r = Fin 62.3.
Proof.
  apply (current_weight_is_positive (rows Sample.four_days) (Fin 62.3)).
  reflexivity.
Defined.

(* ------------------------------------------------------------------------- *)
(** * Further properties of the column mapper *)

Lemma dict_set_keys (k v : string) (d : dict) :
  dict_get k d <> None -> map fst (dict_set k v d) = map fst d.
Proof.
  induction d as [|[k0 v0] d IH]; simpl; intros H; [contradiction|].
  destruct (k0 =? k)%string; simpl; [reflexivity|]. f_equal. apply IH, H.
Qed.

(** X13. The resolved mapping always has the seven keys of the default
    mapping, in the same order. Its date header is either [date] or a
    date-like header of the file, and it is [date] whenever the file has a
    [date] header, even if another header would match as well. *)
Theorem mapping_keys_fixed :
  forall cols : list string,
    map fst (resolve_mapping cols) = map fst default_mapping /\
    (exists v, dict_get "date" (resolve_mapping cols) = Some v /\
               (v = "date" \/ (In v cols /\ date_like v = true))) /\
    (mem "date" cols = true -> resolve_mapping cols = default_mapping).
Proof.
  intros cols. unfold resolve_mapping.
  destruct (mem "date" cols) eqn:Hd; simpl negb; cbv iota.
  - split; [reflexivity|]. split; [|reflexivity].
    exists "date". split; [reflexivity | left; reflexivity].
  - destruct (possible_date_cols cols) as [|c l] eqn:E.
    + split; [reflexivity|]. split; [|discriminate].
      exists "date". split; [reflexivity | left; reflexivity].
    + split; [apply dict_set_keys; discriminate|]. split; [|discriminate].
      exists c. split; [reflexivity|]. right.
      assert (Hin : In c (possible_date_cols cols))
        by (rewrite E; left; reflexivity).
      apply filter_In in Hin. exact Hin.
Qed.

Lemma mapping_keys_fixed_witness :
  resolve_mapping ["Time"; "date"; "steps"] = default_mapping.
Proof.
  apply (proj2 (proj2 (mapping_keys_fixed ["Time"; "date"; "steps"]))).
  reflexivity.
Defined.

(* ------------------------------------------------------------------------- *)
(** * The reply of the model, cleaned *)

Section FoodFacts.
Import Food.

Lemma append_nil_r (s : string) : (s ++ "")%string = s.
Proof. induction s as [|c s IH]; simpl; [reflexivity | now rewrite IH]. Qed.

Lemma append_assoc (a b c : string) :
  ((a ++ b) ++ c)%string = (a ++ (b ++ c))%string.
Proof. induction a as [|x a IH]; simpl; [reflexivity | now rewrite IH]. Qed.

Lemma lstrip_suffix (s : string) : exists w, s = (w ++ lstrip s)%string.
Proof.
  induction s as [|c s [w Hw]]; [exists EmptyString; reflexivity|]. simpl.
  destruct (isspace c).
  - exists (String c w). simpl. now rewrite <- Hw.
  - exists EmptyString. reflexivity.
Qed.

Lemma rstrip_prefix (s : string) : exists w, s = (rstrip s ++ w)%string.
Proof.
  induction s as [|c s [w Hw]]; [exists EmptyString; reflexivity|]. simpl.
  destruct (rstrip s) as [|b r].
  - destruct (isspace c).
    + exists (String c s). reflexivity.
    + exists s. reflexivity.
  - exists w. simpl in *. now rewrite <- Hw.
Qed.

Lemma lstrip_head (s : string) (c : ascii) (r : string) :
  lstrip s = String c r -> isspace c = false.
Proof.
  induction s as [|a s IH]; simpl; [discriminate|].
  destruct (isspace a) eqn:E; [exact IH|]. intros H. injection H as <- _.
  exact E.
Qed.

Lemma rstrip_head (c : ascii) (r : string) :
  isspace c = false -> exists r', rstrip (String c r) = String c r'.
Proof.
  intros H. simpl. destruct (rstrip r); [rewrite H|]; eexists; reflexivity.
Qed.

Lemma rstrip_last (s : string) : forall (r : string) (c : ascii),
  rstrip s = (r ++ String c "")%string -> isspace c = false.
Proof.
  induction s as [|a s IH]; intros r c H.
  - destruct r; discriminate.
  - simpl in H. destruct (rstrip s) as [|b r'].
    + destruct (isspace a) eqn:E; [destruct r; discriminate|].
      destruct r as [|a' r]; [injection H as <-; exact E|].
      injection H as _ H. destruct r; discriminate.
    + destruct r as [|a' r]; [discriminate|]. injection H as _ H.
      exact (IH r c H).
Qed.

Lemma rstrip_idem (s : string) : rstrip (rstrip s) = rstrip s.
Proof.
  induction s as [|c s IH]; [reflexivity|]. simpl.
  destruct (rstrip s) as [|b r] eqn:E.
  - destruct (isspace c) eqn:Ec; [reflexivity|]. simpl. rewrite Ec.
    reflexivity.
  - change (rstrip (String c (String b r)))
      with (match rstrip (String b r) with
            | EmptyString =>
                if isspace c then EmptyString else String c EmptyString
            | r0 => String c r0
            end).
    rewrite IH. reflexivity.
Qed.

Lemma strip_idem (s : string) : strip (strip s) = strip s.
Proof.
  unfold strip. destruct (lstrip s) as [|c r] eqn:E; [reflexivity|].
  pose proof (lstrip_head s c r E) as Hc.
  destruct (rstrip_head c r Hc) as [r' Hr]. rewrite Hr.
  replace (lstrip (String c r')) with (String c r')
    by (simpl; rewrite Hc; reflexivity).
  rewrite <- Hr. apply rstrip_idem.
Qed.

Lemma contains_strip (x s : string) :
  contains x (strip s) = true -> contains x s = true.
Proof.
  rewrite !contains_iff. intros (a & b & H). unfold strip in H.
  destruct (lstrip_suffix s) as [w1 H1].
  destruct (rstrip_prefix (lstrip s)) as [w2 H2].
  exists (w1 ++ a)%string, (b ++ w2)%string.
  rewrite H1 at 1. rewrite H2 at 1. rewrite H.
  now rewrite !append_assoc.
Qed.

(** Removing the fences, one step of the scan. *)
Lemma unfence_step (c : ascii) (s : string) :
  replace_from fence "" 0 (String c s)
  = if prefix fence (String c s) then replace_from fence "" 2 s
    else String c (replace_from fence "" 0 s).
Proof. reflexivity. Qed.

Lemma unfence_head1 (s : string) (X : string) :
  replace_from fence "" 0 s = String "`" X -> exists s', s = String "`" s'.
Proof.
  destruct s as [|c s]; [discriminate|]. rewrite unfence_step.
  destruct (prefix fence (String c s)) eqn:E.
  - apply prefix_iff in E. destruct E as [t Ht]. intros _.
    injection Ht as -> _. eexists. reflexivity.
  - intros H. injection H as -> _. eexists. reflexivity.
Qed.

Lemma unfence_head2 (s : string) (X : string) :
  replace_from fence "" 0 s = String "`" (String "`" X) ->
  exists s', s = String "`" (String "`" s').
Proof.
  destruct s as [|c s]; [discriminate|]. rewrite unfence_step.
  destruct (prefix fence (String c s)) eqn:E.
  - apply prefix_iff in E. destruct E as [t Ht]. intros _.
    injection Ht as -> ->. eexists. reflexivity.
  - intros H. injection H as -> H.
    destruct (unfence_head1 s _ H) as [s' ->]. eexists. reflexivity.
Qed.

Lemma unfence_no_fence (s : string) : forall skip,
  contains fence (replace_from fence "" skip s) = false.
Proof.
  induction s as [|c s IH]; intros skip; [reflexivity|].
  destruct skip as [|k]; [|exact (IH k)].
  rewrite unfence_step. destruct (prefix fence (String c s)) eqn:E;
    [exact (IH 2%nat)|].
  change (contains fence (String c (replace_from fence "" 0 s)))
    with (prefix fence (String c (replace_from fence "" 0 s))
          || contains fence (replace_from fence "" 0 s)).
  rewrite IH, orb_false_r.
  destruct (prefix fence (String c (replace_from fence "" 0 s))) eqn:P;
    [|reflexivity].
  apply prefix_iff in P. destruct P as [t Ht]. injection Ht as -> Ht.
  destruct (unfence_head2 s t Ht) as [s' ->].
  assert (Hp : prefix fence (String "`" (String "`" (String "`" s'))) = true)
    by (apply prefix_iff; exists s'; reflexivity).
  congruence.
Qed.

Lemma clean_text_no_fence (text : string) :
  contains fence (clean_text text) = false.
Proof.
  unfold clean_text.
  destruct (contains fence
              (strip (replace fence "" (replace fence_json "" text)))) eqn:E;
    [|reflexivity].
  apply contains_strip in E. unfold replace at 1 in E. simpl in E.
  rewrite unfence_no_fence in E. discriminate.
Qed.

Lemma replace_absent (old new s : string) :
  contains old s = false -> replace_from old new 0 s = s.
Proof.
  induction s as [|c s IH]; [reflexivity|].
  change (contains old (String c s))
    with (prefix old (String c s) || contains old s).
  intros H. apply orb_false_iff in H. destruct H as [Hp Hc].
  change (replace_from old new 0 (String c s))
    with (if prefix old (String c s)
          then (new ++ replace_from old new (String.length old - 1) s)%string
          else String c (replace_from old new 0 s)).
  rewrite Hp. f_equal. exact (IH Hc).
Qed.

Lemma fence_json_has_fence (s : string) :
  contains fence_json s = true -> contains fence s = true.
Proof.
  rewrite !contains_iff. intros (a & b & ->).
  exists a, ("json" ++ b)%string. reflexivity.
Qed.

Lemma prefix_other_head (a c : ascii) (p s : string) :
  a <> c -> prefix (String a p) (String c s) = false.
Proof.
  intros Hne. destruct (prefix (String a p) (String c s)) eqn:E;
    [|reflexivity].
  apply prefix_iff in E. destruct E as [b Hb]. injection Hb as Hc _.
  congruence.
Qed.

Lemma replace_past_plain (old' new b t : string) :
  no_backtick b = true ->
  replace_from (String "`" old') new 0 (b ++ t)
  = (b ++ replace_from (String "`" old') new 0 t)%string.
Proof.
  induction b as [|c b IH]; intros H; [reflexivity|].
  simpl in H. apply andb_true_iff in H. destruct H as [Hc Hb].
  change ((String c b ++ t)%string) with (String c (b ++ t)).
  change (replace_from (String "`" old') new 0 (String c (b ++ t)))
    with (if prefix (String "`" old') (String c (b ++ t))
          then (new ++ replace_from (String "`" old') new
                         (String.length (String "`" old') - 1) (b ++ t))%string
          else String c (replace_from (String "`" old') new 0 (b ++ t))).
  rewrite prefix_other_head.
  - simpl. f_equal. exact (IH Hb).
  - intros <-. discriminate Hc.
Qed.

Lemma replace_plain (old' new b : string) :
  no_backtick b = true -> replace_from (String "`" old') new 0 b = b.
Proof.
  intros H. rewrite <- (append_nil_r b) at 1.
  rewrite (replace_past_plain old' new b "" H). apply append_nil_r.
Qed.

Lemma replace_fence_json_eq (s : string) :
  replace fence_json "" s = replace_from fence_json "" 0 s.
Proof. reflexivity. Qed.

Lemma replace_fence_eq (s : string) :
  replace fence "" s = replace_from fence "" 0 s.
Proof. reflexivity. Qed.

Lemma unfence_json_fenced (b : string) :
  no_backtick b = true ->
  replace_from fence_json "" 0 (fence_json ++ b ++ fence) = (b ++ fence)%string.
Proof.
  intros Hb.
  assert (Hp : prefix fence_json (fence_json ++ b ++ fence) = true)
    by (apply prefix_iff; eexists; reflexivity).
  change (replace_from fence_json "" 0 (fence_json ++ b ++ fence))
    with (if prefix fence_json (fence_json ++ b ++ fence)
          then replace_from fence_json "" 0 (b ++ fence)
          else String "`"
                 (replace_from fence_json "" 0
                    ("``json" ++ b ++ fence))).
  rewrite Hp. unfold fence_json.
  rewrite (replace_past_plain _ _ b fence Hb). reflexivity.
Qed.

Lemma unfence_closing (b : string) :
  no_backtick b = true -> replace_from fence "" 0 (b ++ fence) = b.
Proof.
  intros Hb. unfold fence at 1.
  rewrite (replace_past_plain _ _ b fence Hb).
  change (replace_from (String "`" (String "`" (String "`" ""))) "" 0 fence)
    with EmptyString.
  apply append_nil_r.
Qed.

End FoodFacts.

(** X14. The text handed to [json.loads] never contains a code fence, and
    it neither starts nor ends with white space, whatever the model
    replied. *)
Theorem cleaned_reply_has_no_fence :
  forall text : string,
    contains Food.fence (Food.clean_text text) = false /\
    (forall c r, Food.clean_text text = String c r ->
                 Food.isspace c = false) /\
    (forall r c, Food.clean_text text = (r ++ String c "")%string ->
                 Food.isspace c = false).
Proof.
  intros text. split; [apply clean_text_no_fence|].
  unfold Food.clean_text. split.
  - intros c r H. unfold Food.strip in H.
    destruct (Food.lstrip
                (Food.replace Food.fence ""
                   (Food.replace Food.fence_json "" text))) as [|c0 r0] eqn:E;
      [discriminate|].
    pose proof (lstrip_head _ _ _ E) as Hc0.
    destruct (rstrip_head c0 r0 Hc0) as [r' Hr]. rewrite Hr in H.
    injection H as <- _. exact Hc0.
  - intros r c H. unfold Food.strip in H. exact (rstrip_last _ _ _ H).
Qed.

Lemma cleaned_reply_has_no_fence_witness :
  Food.isspace "["%char = false.
Proof.
  apply (proj1 (proj2 (cleaned_reply_has_no_fence
                         "  ```json [350, 20] ``` "))
           "["%char "350, 20]").
  vm_compute. reflexivity.
Defined.

(** X15. Cleaning a reply that is already clean changes nothing. *)
Theorem clean_text_idempotent :
  forall text : string,
    Food.clean_text (Food.clean_text text) = Food.clean_text text.
Proof.
  intros text.
  pose proof (clean_text_no_fence text) as Hno.
  set (u := Food.clean_text text) in *.
  assert (Hj : contains Food.fence_json u = false).
  { destruct (contains Food.fence_json u) eqn:E; [|reflexivity].
    apply fence_json_has_fence in E. congruence. }
  unfold Food.clean_text at 1. unfold Food.replace, Food.fence_json at 1.
  change (String "`" (String "`" (String "`" "json"))) with Food.fence_json.
  rewrite (replace_absent _ _ _ Hj). unfold Food.fence at 1.
  change (String "`" (String "`" (String "`" ""))) with Food.fence.
  rewrite (replace_absent _ _ _ Hno).
  unfold u, Food.clean_text. apply strip_idem.
Qed.

(** X16. A reply wrapped in a [json] code fence is read like the same reply
    without the fence: when the wrapped text has no backtick of its own,
    both are cleaned to that text stripped of its outer white space, and
    [analyze_food_text] returns the same result for both. *)
Theorem fenced_reply_same_as_bare :
  forall (J : Type) (ask1 ask2 : string -> option string)
         (loads : string -> option J) (api_key : option string)
         (text_input b : string),
    no_backtick b = true ->
    ask1 text_input = Some (Food.fence_json ++ b ++ Food.fence)%string ->
    ask2 text_input = Some b ->
    Food.clean_text (Food.fence_json ++ b ++ Food.fence) = Food.strip b /\
    Food.clean_text b = Food.strip b /\
    Food.analyze_food_text J ask1 loads api_key text_input
    = Food.analyze_food_text J ask2 loads api_key text_input.
Proof.
  intros J ask1 ask2 loads api_key text_input b Hb H1 H2.
  assert (Hbare : Food.clean_text b = Food.strip b).
  { unfold Food.clean_text.
    rewrite replace_fence_json_eq, replace_fence_eq.
    unfold Food.fence_json, Food.fence.
    rewrite !(replace_plain _ _ b Hb). reflexivity. }
  assert (Hfenced : Food.clean_text (Food.fence_json ++ b ++ Food.fence)
                    = Food.strip b).
  { unfold Food.clean_text.
    rewrite replace_fence_json_eq, replace_fence_eq.
    rewrite (unfence_json_fenced b Hb), (unfence_closing b Hb).
    reflexivity. }
  split; [exact Hfenced | split; [exact Hbare|]].
  unfold Food.analyze_food_text. rewrite H1, H2, Hfenced, Hbare. reflexivity.
Qed.

Lemma fenced_reply_same_as_bare_witness :
  Food.clean_text (Food.fence_json ++ " [350, 20, 45, 12] " ++ Food.fence)
  = Food.strip " [350, 20, 45, 12] ".
Proof.
  exact (proj1 (fenced_reply_same_as_bare string
                  (fun _ => Some "```json [350, 20, 45, 12] ```")
                  (fun _ => Some " [350, 20, 45, 12] ")
                  (fun s => Some s) (Some "key") "pasta"
                  " [350, 20, 45, 12] " eq_refl eq_refl eq_refl)).
Defined.

(* ------------------------------------------------------------------------- *)
(** * The chart of the last seven days, its rows *)

Section ChartFacts.
Import Chart.

Lemma leb_iff (a b : string) :
  (a <=? b)%string = true <-> String_as_OT.lt a b \/ a = b.
Proof.
  unfold String.leb. destruct (String.compare a b) eqn:E.
  - apply String_as_OT.cmp_eq in E. tauto.
  - apply String_as_OT.cmp_lt in E. tauto.
  - split; [discriminate|]. intros [H | H].
    + apply String_as_OT.cmp_lt in H. unfold String_as_OT.cmp in H.
      congruence.
    + apply String_as_OT.cmp_eq in H. unfold String_as_OT.cmp in H.
      congruence.
Qed.

Lemma leb_trans (a b c : string) :
  (a <=? b)%string = true -> (b <=? c)%string = true ->
  (a <=? c)%string = true.
Proof.
  rewrite !leb_iff. intros [H1 | ->] [H2 | ->]; auto.
  left. exact (String_as_OT.lt_trans _ _ _ H1 H2).
Qed.

Lemma leb_refl (a : string) : (a <=? a)%string = true.
Proof. apply leb_iff. right. reflexivity. Qed.

Lemma chart_date_le_trans : Relations_1.Transitive chart_date_le.
Proof. intros a b c. unfold chart_date_le. apply leb_trans. Qed.

Lemma insert_chart_perm r l : Permutation (insert_chart r l) (r :: l).
Proof.
  induction l as [|r' l IH]; simpl; [apply Permutation_refl|].
  destruct (c_date r <=? c_date r')%string; [apply Permutation_refl|].
  eapply perm_trans; [apply perm_skip, IH | apply perm_swap].
Qed.

Lemma sort_values_perm l : Permutation (sort_values l) l.
Proof.
  induction l as [|r l IH]; simpl; [apply perm_nil|].
  eapply perm_trans; [apply insert_chart_perm | apply perm_skip, IH].
Qed.

Lemma insert_chart_sorted r l :
  Sorted chart_date_le l -> Sorted chart_date_le (insert_chart r l).
Proof.
  induction l as [|r' l IH]; intros Hs; simpl.
  - repeat constructor.
  - destruct (c_date r <=? c_date r')%string eqn:E.
    + constructor; [exact Hs | constructor; exact E].
    + inversion Hs as [|? ? Hs' Hhd]; subst.
      assert (Hle : chart_date_le r' r).
      { unfold chart_date_le.
        destruct (String.leb_total (c_date r) (c_date r')) as [H | H];
          [congruence | exact H]. }
      constructor; [apply IH, Hs'|].
      destruct l as [|r'' l]; simpl; [constructor; exact Hle|].
      destruct (c_date r <=? c_date r'')%string; constructor;
        [exact Hle | inversion Hhd; assumption].
Qed.

Lemma sort_values_sorted l : StronglySorted chart_date_le (sort_values l).
Proof.
  apply (Sorted_StronglySorted chart_date_le_trans).
  induction l as [|r l IH]; simpl;
    [constructor | apply insert_chart_sorted, IH].
Qed.

Lemma tail_length {A} (n : nat) (l : list A) :
  length (tail n l) = Nat.min n (length l).
Proof. unfold tail. rewrite length_skipn. lia. Qed.

Lemma tail_split {A} (n : nat) (l : list A) :
  l = firstn (length l - n) l ++ tail n l.
Proof. unfold tail. symmetry. apply firstn_skipn. Qed.

Lemma tail_all {A} (n : nat) (l : list A) :
  (length l <= n)%nat -> tail n l = l.
Proof.
  intros H. unfold tail. replace (length l - n)%nat with 0%nat by lia.
  reflexivity.
Qed.

Lemma tail_In {A} (n : nat) (l : list A) (x : A) :
  In x (tail n l) -> In x l.
Proof.
  intros H. rewrite (tail_split n l). apply in_or_app. right. exact H.
Qed.

Lemma strongly_sorted_app {A} (R : A -> A -> Prop) (l1 l2 : list A) :
  StronglySorted R (l1 ++ l2) ->
  StronglySorted R l2 /\ forall a b, In a l1 -> In b l2 -> R a b.
Proof.
  induction l1 as [|x l1 IH]; simpl; intros H.
  - split; [exact H | intros a b []].
  - apply StronglySorted_inv in H. destruct H as [Hs Hall].
    destruct (IH Hs) as [H2 Hab]. split; [exact H2|].
    intros a b [<- | Ha] Hb; [|exact (Hab a b Ha Hb)].
    rewrite Forall_forall in Hall. apply Hall, in_or_app. right. exact Hb.
Qed.

(** The group keys are the days of the meals, each once. *)
Lemma insert_key_In d l x : In x (insert_key d l) <-> x = d \/ In x l.
Proof.
  induction l as [|d' l IH]; simpl; [intuition|].
  destruct (d =? d')%string eqn:E.
  - apply String.eqb_eq in E. subst d'. simpl. intuition.
  - destruct (d <=? d')%string; simpl; [intuition|]. rewrite IH. intuition.
Qed.

Lemma group_keys_In l x : In x (group_keys l) <-> In x l.
Proof.
  induction l as [|d l IH]; simpl; [tauto|].
  rewrite insert_key_In, IH. intuition.
Qed.

Lemma key_lt_trans a b c : key_lt a b -> key_lt b c -> key_lt a c.
Proof.
  intros [H1 N1] [H2 N2]. split; [exact (leb_trans _ _ _ H1 H2)|].
  intros ->. apply N1. apply String.leb_antisym; assumption.
Qed.

Lemma insert_key_sorted d l :
  StronglySorted key_lt l -> StronglySorted key_lt (insert_key d l).
Proof.
  induction l as [|d' l IH]; intros Hs; simpl.
  - repeat constructor.
  - destruct (String.eqb_spec d d') as [-> | Hne]; [exact Hs|].
    apply StronglySorted_inv in Hs. destruct Hs as [Hs Hall].
    destruct (d <=? d')%string eqn:E.
    + assert (Hlt : key_lt d d') by (split; assumption).
      constructor; [constructor; assumption|]. constructor; [exact Hlt|].
      rewrite Forall_forall in *. intros x Hx.
      exact (key_lt_trans _ _ _ Hlt (Hall x Hx)).
    + assert (Hlt : key_lt d' d).
      { split; [|congruence].
        destruct (String.leb_total d d') as [H | H]; [congruence | exact H]. }
      constructor; [apply IH, Hs|]. rewrite Forall_forall in *.
      intros x Hx. apply insert_key_In in Hx.
      destruct Hx as [-> | Hx]; [exact Hlt | exact (Hall x Hx)].
Qed.

Lemma group_keys_NoDup l : NoDup (group_keys l).
Proof.
  assert (Hs : StronglySorted key_lt (group_keys l)).
  { induction l as [|d l IH]; simpl;
      [constructor | apply insert_key_sorted, IH]. }
  induction Hs as [|a k Hs IH Hall]; constructor; [|exact IH].
  intros Hin. rewrite Forall_forall in Hall. destruct (Hall a Hin) as [_ Hn].
  apply Hn. reflexivity.
Qed.

Lemma daily_kcal_keys df_meals :
  map fst (daily_kcal df_meals) = group_keys (map fst df_meals).
Proof.
  unfold daily_kcal. rewrite map_map. simpl. apply map_id.
Qed.

Lemma daily_kcal_total df_meals dk :
  In dk (daily_kcal df_meals) ->
  snd dk = Qsum (present (map snd
                            (filter (fun m => (fst m =? fst dk)%string)
                                    df_meals))).
Proof.
  unfold daily_kcal. intros H. apply in_map_iff in H.
  destruct H as (d & <- & _). reflexivity.
Qed.

Lemma daily_kcal_none df_meals d :
  filter (fun dk => (fst dk =? d)%string) (daily_kcal df_meals) = [] ->
  filter (fun m => (fst m =? d)%string) df_meals = [].
Proof.
  intros H. apply filter_none. intros m Hm.
  destruct (fst m =? d)%string eqn:E; [|reflexivity]. exfalso.
  apply String.eqb_eq in E.
  assert (Hk : In d (map fst (daily_kcal df_meals))).
  { rewrite daily_kcal_keys. apply group_keys_In. rewrite <- E.
    apply in_map. exact Hm. }
  apply in_map_iff in Hk. destruct Hk as (dk & Hd & Hin).
  assert (Hf : In dk (filter (fun dk => (fst dk =? d)%string)
                        (daily_kcal df_meals))).
  { apply filter_In. split; [exact Hin|]. rewrite Hd. apply String.eqb_refl. }
  rewrite H in Hf. exact Hf.
Qed.

End ChartFacts.

Section MergeFacts.
Import Chart.

Lemma existsb_has_date d df :
  existsb (has_date d) df = true <-> exists r, In r df /\ date r = d.
Proof.
  rewrite existsb_exists. split; intros (r & Hin & H); exists r;
    (split; [exact Hin | apply has_date_iff; exact H]).
Qed.

(** Where a row of the merge comes from. *)
Lemma merge_outer_In df daily row :
  In row (merge_outer df daily) ->
  (exists r, In r df /\ c_date row = date r /\
             c_body_weight row = body_weight r /\
             c_sleep_hours row = sleep_hours r /\
             c_steps row = Fin (inject_Z (steps r)) /\
             ((c_kcal row = NaN /\
               filter (fun dk => (fst dk =? date r)%string) daily = []) \/
              exists dk, In dk daily /\ fst dk = date r /\
                         c_kcal row = Fin (snd dk))) \/
  (exists dk, In dk daily /\ (forall r, In r df -> date r <> fst dk) /\
              row = right_row dk).
Proof.
  unfold merge_outer. intros H. apply in_app_or in H. destruct H as [H | H].
  - left. apply in_flat_map in H. destruct H as (r & Hr & H). exists r.
    destruct (filter (fun dk => (fst dk =? date r)%string) daily)
      as [|dk0 found] eqn:E.
    + destruct H as [<- | []]. simpl. intuition.
    + apply in_map_iff in H. destruct H as (dk & <- & Hdk).
      rewrite <- E in Hdk. apply filter_In in Hdk. destruct Hdk as [Hin Hk].
      apply String.eqb_eq in Hk. simpl. repeat split; try assumption.
      right. exists dk. auto.
  - right. apply in_map_iff in H. destruct H as (dk & <- & Hdk).
    apply filter_In in Hdk. destruct Hdk as [Hin Hno]. exists dk.
    split; [exact Hin|]. split; [|reflexivity]. intros r Hr Hd.
    assert (Ht : existsb (has_date (fst dk)) df = true)
      by (apply existsb_has_date; exists r; auto).
    rewrite Ht in Hno. discriminate.
Qed.

(** Every day of either frame has a row in the merge. *)
Lemma merge_outer_dates df daily d :
  In d (map date df) \/ In d (map fst daily) ->
  In d (map c_date (merge_outer df daily)).
Proof.
  assert (Hleft : forall r, In r df ->
             In (date r) (map c_date (merge_outer df daily))).
  { intros r Hr. unfold merge_outer. rewrite map_app. apply in_or_app. left.
    apply in_map_iff.
    destruct (filter (fun dk => (fst dk =? date r)%string) daily)
      as [|dk0 found] eqn:E.
    - exists (left_row r NaN). split; [reflexivity|]. apply in_flat_map.
      exists r. split; [exact Hr|]. rewrite E. left. reflexivity.
    - exists (left_row r (Fin (snd dk0))). split; [reflexivity|].
      apply in_flat_map. exists r. split; [exact Hr|]. rewrite E. left.
      reflexivity. }
  intros [H | H].
  - apply in_map_iff in H. destruct H as (r & <- & Hr). exact (Hleft r Hr).
  - apply in_map_iff in H. destruct H as (dk & <- & Hdk).
    destruct (existsb (has_date (fst dk)) df) eqn:E.
    + apply existsb_has_date in E. destruct E as (r & Hr & <-).
      exact (Hleft r Hr).
    + unfold merge_outer. rewrite map_app. apply in_or_app. right.
      apply in_map_iff. exists (right_row dk). split; [reflexivity|].
      apply in_map. apply filter_In. split; [exact Hdk|]. rewrite E.
      reflexivity.
Qed.

Lemma filter_key_unique {B} (l : list (string * B)) d :
  NoDup (map fst l) ->
  filter (fun x => (fst x =? d)%string) l = [] \/
  exists x, filter (fun x => (fst x =? d)%string) l = [x].
Proof.
  induction l as [|a l IH]; intros Hnd; [left; reflexivity|].
  simpl in Hnd. inversion Hnd as [|? ? Hnin Hnd']; subst. simpl.
  destruct (fst a =? d)%string eqn:E; [|exact (IH Hnd')].
  right. exists a. f_equal. apply filter_none. intros x Hx.
  destruct (fst x =? d)%string eqn:Ex; [|reflexivity]. exfalso.
  apply String.eqb_eq in E, Ex. apply Hnin. rewrite E, <- Ex.
  apply in_map. exact Hx.
Qed.

Lemma flat_map_dates (f : zepp_row -> list chart_row) df :
  (forall r, map c_date (f r) = [date r]) ->
  map c_date (flat_map f df) = map date df.
Proof.
  intros Hf. induction df as [|r df IH]; [reflexivity|].
  simpl. rewrite map_app, Hf, IH. reflexivity.
Qed.

Lemma merge_outer_left_dates df daily :
  NoDup (map fst daily) ->
  map c_date
    (flat_map
       (fun r =>
          match filter (fun dk => (fst dk =? date r)%string) daily with
          | [] => [left_row r NaN]
          | found => map (fun dk => left_row r (Fin (snd dk))) found
          end) df)
  = map date df.
Proof.
  intros Hnd. apply flat_map_dates. intros r.
  destruct (filter_key_unique daily (date r) Hnd) as [-> | [x ->]];
    reflexivity.
Qed.

Lemma merge_outer_NoDup df daily :
  NoDup (map date df) -> NoDup (map fst daily) ->
  NoDup (map c_date (merge_outer df daily)).
Proof.
  intros Hl Hr. unfold merge_outer.
  rewrite map_app, (merge_outer_left_dates df daily Hr), map_map. simpl.
  apply NoDup_app; [exact Hl | apply NoDup_map_filter, Hr|].
  intros d Hd Hin. apply in_map_iff in Hin. destruct Hin as (dk & <- & Hdk).
  apply filter_In in Hdk. destruct Hdk as [_ Hno].
  apply in_map_iff in Hd. destruct Hd as (r & Hd & Hin).
  assert (Ht : existsb (has_date (fst dk)) df = true)
    by (apply existsb_has_date; exists r; auto).
  rewrite Ht in Hno. discriminate.
Qed.

Lemma fillna0_date l : map c_date (map fillna0 l) = map c_date l.
Proof. rewrite map_map. reflexivity. Qed.

Lemma fill0_not_missing x : fill0 x <> NaN.
Proof. destruct x; discriminate. Qed.

(** The rows before the sort and the cut, for a row of the chart. *)
Lemma merged_df_In df_zepp df_meals chart row :
  merged_df df_zepp df_meals = Some chart -> In row chart ->
  exists row0, In row0 (merge_outer df_zepp (daily_kcal df_meals)) /\
               row = fillna0 row0.
Proof.
  unfold merged_df. destruct df_zepp as [|r0 df]; [discriminate|].
  intros H Hin. injection H as <-. apply tail_In in Hin.
  apply (Permutation_in _ (sort_values_perm _)) in Hin.
  apply in_map_iff in Hin. destruct Hin as (row0 & <- & Hin).
  exists row0. auto.
Qed.

Lemma merged_df_sorted df_zepp df_meals chart :
  merged_df df_zepp df_meals = Some chart ->
  StronglySorted chart_date_le chart.
Proof.
  unfold merged_df. destruct df_zepp as [|r0 df]; [discriminate|].
  intros H. injection H as <-.
  pose proof (sort_values_sorted
                (map fillna0 (merge_outer (r0 :: df) (daily_kcal df_meals))))
    as Hs.
  rewrite (tail_split 7) in Hs.
  exact (proj1 (strongly_sorted_app _ _ _ Hs)).
Qed.

End MergeFacts.

(** X17. No chart is drawn exactly when the query returned no row, even if
    there are meals. A chart that is drawn has at most seven rows, in
    ascending order of date, and none of its figures is missing. *)
Theorem chart_at_most_seven_sorted_filled :
  forall (df_zepp : list zepp_row) (df_meals : list Chart.meal),
    (Chart.merged_df df_zepp df_meals = None <-> df_zepp = []) /\
    forall chart,
      Chart.merged_df df_zepp df_meals = Some chart ->
      (length chart <= 7)%nat /\
      StronglySorted chart_date_le chart /\
      forall row, In row chart -> filled row.
Proof.
  intros df meals. split.
  - unfold Chart.merged_df. destruct df; split; intros H;
      try reflexivity; discriminate.
  - intros chart H. split; [|split].
    + unfold Chart.merged_df in H. destruct df; [discriminate|].
      injection H as <-. rewrite tail_length. lia.
    + exact (merged_df_sorted _ _ _ H).
    + intros row Hin.
      destruct (merged_df_In _ _ _ _ H Hin) as (row0 & _ & ->).
      unfold filled. simpl. repeat split; apply fill0_not_missing.
Qed.

Lemma chart_at_most_seven_sorted_filled_witness :
  (length [Chart.mkChart "2024-05-03" (Fin 62.3) (Fin 6) (Fin 0) (Fin 0)]
   <= 7)%nat.
Proof.
  apply (proj2 (chart_at_most_seven_sorted_filled
                  [Sample.weighed 3 "2024-05-03" 62.3 6] [])).
  reflexivity.
Defined.

(** X18. When the rows of the query have distinct dates, as the UNIQUE
    column guarantees, every day has one row in the chart: the dates of the
    chart are strictly ascending. *)
Theorem chart_one_row_per_day :
  forall (df_zepp : list zepp_row) (df_meals : list Chart.meal)
         (chart : list Chart.chart_row),
    NoDup (map date df_zepp) ->
    Chart.merged_df df_zepp df_meals = Some chart ->
    NoDup (map Chart.c_date chart) /\ StronglySorted chart_date_lt chart.
Proof.
  intros df meals chart Hnd H.
  assert (Hdup : NoDup (map Chart.c_date chart)).
  { unfold Chart.merged_df in H. destruct df as [|r0 df]; [discriminate|].
    injection H as <-.
    set (L := Chart.sort_values _).
    assert (HL : NoDup (map Chart.c_date L)).
    { apply (Permutation_NoDup
               (Permutation_map Chart.c_date
                  (Permutation_sym (sort_values_perm _)))).
      rewrite fillna0_date. apply merge_outer_NoDup; [exact Hnd|].
      rewrite daily_kcal_keys. apply group_keys_NoDup. }
    rewrite (tail_split 7 L), map_app in HL.
    exact (NoDup_app_remove_l _ _ HL). }
  split; [exact Hdup|].
  pose proof (merged_df_sorted _ _ _ H) as Hs.
  clear H. induction Hs as [|a l Hs IH Hall]; [constructor|].
  simpl in Hdup. inversion Hdup as [|? ? Hnin Hdup']; subst.
  constructor; [exact (IH Hdup')|]. rewrite Forall_forall in *.
  intros x Hx. split; [exact (Hall x Hx)|]. intros Heq. apply Hnin.
  rewrite Heq. apply in_map. exact Hx.
Qed.

Lemma chart_one_row_per_day_witness :
  NoDup (map Chart.c_date
           (Cases.drawn (Chart.merged_df (rows Sample.four_days)
                           Cases.meals_may))).
Proof.
  apply (chart_one_row_per_day (rows Sample.four_days) Cases.meals_may).
  - exact (proj1 four_days_ok).
  - vm_compute. reflexivity.
Defined.

(** X19. The chart keeps the latest days: a day of the query or of the meals
    that is not in the chart is not later than any day of the chart, and a
    day is left out only when the chart already has seven rows. *)
Theorem chart_shows_latest_days :
  forall (df_zepp : list zepp_row) (df_meals : list Chart.meal)
         (chart : list Chart.chart_row) (d : string),
    Chart.merged_df df_zepp df_meals = Some chart ->
    In d (map date df_zepp) \/ In d (map fst df_meals) ->
    In d (map Chart.c_date chart) \/
    (length chart = 7%nat /\
     forall row, In row chart -> (d <=? Chart.c_date row)%string = true).
Proof.
  intros df meals chart d H Hd. unfold Chart.merged_df in H.
  destruct df as [|r0 df]; [discriminate|]. injection H as <-.
  set (M := Chart.merge_outer (r0 :: df) (Chart.daily_kcal meals)).
  set (L := Chart.sort_values (map Chart.fillna0 M)).
  assert (HdL : In d (map Chart.c_date L)).
  { apply (Permutation_in _
             (Permutation_map Chart.c_date
                (Permutation_sym (sort_values_perm _)))).
    rewrite fillna0_date. apply merge_outer_dates.
    destruct Hd as [Hd | Hd]; [left; exact Hd | right].
    rewrite daily_kcal_keys. apply group_keys_In. exact Hd. }
  apply in_map_iff in HdL. destruct HdL as (x & Hx & Hin).
  rewrite (tail_split 7 L) in Hin. apply in_app_or in Hin.
  destruct Hin as [Hin | Hin].
  - right. split.
    + rewrite tail_length.
      assert (length (firstn (length L - 7) L) <> 0)%nat
        by (destruct (firstn (length L - 7) L); [contradiction | discriminate]).
      rewrite length_firstn in H. lia.
    + intros row Hrow. pose proof (sort_values_sorted (map Chart.fillna0 M))
        as Hs.
      fold L in Hs. rewrite (tail_split 7 L) in Hs.
      destruct (strongly_sorted_app _ _ _ Hs) as [_ Hab].
      specialize (Hab x row Hin Hrow). unfold chart_date_le in Hab.
      rewrite Hx in Hab. exact Hab.
  - left. rewrite <- Hx. apply in_map. exact Hin.
Qed.

Lemma chart_shows_latest_days_witness :
  In "2024-05-06"
    (map Chart.c_date
       (Cases.drawn (Chart.merged_df (rows Sample.four_days)
                       Cases.meals_may))) \/
  (length (Cases.drawn (Chart.merged_df (rows Sample.four_days)
                          Cases.meals_may)) = 7%nat /\
   forall row,
     In row (Cases.drawn (Chart.merged_df (rows Sample.four_days)
                            Cases.meals_may)) ->
     ("2024-05-06" <=? Chart.c_date row)%string = true).
Proof.
  apply (chart_shows_latest_days (rows Sample.four_days) Cases.meals_may).
  - vm_compute. reflexivity.
  - right. simpl. tauto.
Defined.

(** X20. Every row of the chart shows, for its day, the calories of the
    meals of that day added up (0 when there is none, a meal without
    calories adding nothing), and the steps, weight and sleep of the record
    of that day with 0 for what is missing, or 0 for all three when the day
    has no record. *)
Theorem chart_row_values :
  forall (df_zepp : list zepp_row) (df_meals : list Chart.meal)
         (chart : list Chart.chart_row) (row : Chart.chart_row),
    Chart.merged_df df_zepp df_meals = Some chart ->
    In row chart ->
    Chart.c_kcal row
    = Fin (Qsum (present
                   (map snd
                      (filter (fun m => (fst m =? Chart.c_date row)%string)
                              df_meals)))) /\
    ((exists r, In r df_zepp /\ date r = Chart.c_date row /\
                Chart.c_steps row = Fin (inject_Z (steps r)) /\
                Chart.c_body_weight row = Chart.fill0 (body_weight r) /\
                Chart.c_sleep_hours row = Chart.fill0 (sleep_hours r)) \/
     ((forall r, In r df_zepp -> date r <> Chart.c_date row) /\
      In (Chart.c_date row) (map fst df_meals) /\
      Chart.c_steps row = Fin 0 /\ Chart.c_body_weight row = Fin 0 /\
      Chart.c_sleep_hours row = Fin 0)).
Proof.
  intros df meals chart row H Hin.
  destruct (merged_df_In _ _ _ _ H Hin) as (row0 & H0 & ->).
  apply merge_outer_In in H0.
  destruct H0 as [(r & Hr & Hd & Hw & Hs & Hst & Hk) | (dk & Hdk & Hno & ->)].
  - simpl. rewrite Hd, Hw, Hs, Hst. split.
    + destruct Hk as [[-> Hnone] | (dk & Hdk & Hkey & ->)]; simpl.
      * rewrite (daily_kcal_none _ _ Hnone). reflexivity.
      * rewrite (daily_kcal_total _ _ Hdk), Hkey. reflexivity.
    + left. exists r. repeat split. exact Hr.
  - simpl. split.
    + rewrite (daily_kcal_total _ _ Hdk). reflexivity.
    + right. repeat split; [exact Hno|].
      rewrite <- (group_keys_In (map fst meals)), <- daily_kcal_keys.
      apply in_map. exact Hdk.
Qed.

Lemma chart_row_values_witness :
  Chart.c_kcal (Chart.mkChart "2024-05-02" (Fin 0) (Fin 8) (Fin 0) (Fin 950))
  = Fin (Qsum (present
                 (map snd
                    (filter (fun m => (fst m =? "2024-05-02")%string)
                            Cases.meals_may)))).
Proof.
  apply (chart_row_values (rows Sample.four_days) Cases.meals_may
           (Cases.drawn (Chart.merged_df (rows Sample.four_days)
                           Cases.meals_may))
           (Chart.mkChart "2024-05-02" (Fin 0) (Fin 8) (Fin 0) (Fin 950))).
  - vm_compute. reflexivity.
  - vm_compute. tauto.
Defined.
